(** * Resume explorer: the readability pipeline and the analysis cache

    A shallow embedding of [utils/enhanced_pdf_processor.py]
    (class [EnhancedPDFProcessor]) and of the cache functions of
    [agents/flask_app.py] ([cache_analysis], [get_cached_analysis],
    [cleanup_old_cache]), followed by the properties of the design
    document that concern them.

    Python values are embedded as follows.
    - A [str] is the list of its code points.
    - An exception raised inside a [try] block is the [Raise] outcome of a
      [result]; the [except Exception] handlers of the source are written
      as matches on it.
    - Third-party libraries (pdfplumber, PyPDF2, nltk, textstat, json) and
      the Unicode character database are interfaces: type classes whose
      methods the embedded functions call. *)

From Stdlib Require Import ZArith NArith QArith Lia DecimalString.
From stdpp Require Import gmap list sorting strings.

Local Open Scope N_scope.

(** ** Python strings *)

(** A [str] is the list of its code points. *)
Definition char := N.
Definition str := list char.
(** A [bytes] object is the list of its bytes, each below 256. *)
Definition bytes := list N.

(** [py "abc"] is the Python literal ['abc']. *)
Definition py (s : string) : str := map Ascii.N_of_ascii (String.list_ascii_of_string s).

(** [str.__eq__] as a boolean. *)
Definition str_eqb (a b : str) : bool := bool_decide (a = b).

(** [s.startswith(p)]. *)
Fixpoint startswith (p s : str) : bool :=
  match p, s with
  | [], _ => true
  | _ :: _, [] => false
  | a :: p', b :: s' => (a =? b) && startswith p' s'
  end.

(** [Py_UNICODE_ISSPACE]: the code points that [str.isspace], [str.strip],
    [str.split] and the regular-expression class [\s] treat as white
    space. *)
Definition isspace (c : char) : bool :=
  ((9 <=? c) && (c <=? 13)) || ((28 <=? c) && (c <=? 32))
  || (c =? 133) || (c =? 160) || (c =? 5760)
  || ((8192 <=? c) && (c <=? 8202))
  || (c =? 8232) || (c =? 8233) || (c =? 8239) || (c =? 8287) || (c =? 12288).

Definition is_ascii_lower (c : char) : bool := (97 <=? c) && (c <=? 122).
Definition is_ascii_upper (c : char) : bool := (65 <=? c) && (c <=? 90).
Definition is_ascii_digit (c : char) : bool := (48 <=? c) && (c <=? 57).

(** The Unicode character database above the ASCII range: which code
    points are alphanumeric, which are alphabetic, and the lower-case
    mapping (which may yield several code points). *)
Class UnicodeData := {
  uni_isalnum : char -> bool;
  uni_isalpha : char -> bool;
  uni_lower : char -> list char
}.

Section unicode.
Context `{UnicodeData}.

(** [c.isalpha()] for one code point. *)
Definition char_isalpha (c : char) : bool :=
  if c <? 128 then is_ascii_lower c || is_ascii_upper c else uni_isalpha c.

(** The class [\w] of a [str] pattern: alphanumeric or underscore. *)
Definition isword (c : char) : bool :=
  if c <? 128
  then is_ascii_lower c || is_ascii_upper c || is_ascii_digit c || (c =? 95)
  else uni_isalnum c.

(** [s.isalpha()]: non-empty and every code point alphabetic. *)
Definition isalpha (s : str) : bool :=
  match s with
  | [] => false
  | _ => forallb char_isalpha s
  end.

Definition char_lower (c : char) : list char :=
  if c <? 128 then [if is_ascii_upper c then c + 32 else c] else uni_lower c.

(** [s.lower()]. *)
Definition lower (s : str) : str := flat_map char_lower s.
End unicode.

(** [s.lstrip()], [s.rstrip()] and [s.strip()]: white space is removed
    from the left end, from the right end, from both. *)
Fixpoint lstrip (s : str) : str :=
  match s with
  | [] => []
  | c :: s' => if isspace c then lstrip s' else s
  end.

Fixpoint rstrip (s : str) : str :=
  match s with
  | [] => []
  | c :: s' =>
      match rstrip s' with
      | [] => if isspace c then [] else [c]
      | t => c :: t
      end
  end.

Definition strip (s : str) : str := rstrip (lstrip s).

(** [len(s.split())]: the number of maximal runs of non-space code
    points. [in_word] tells whether the previous code point was one. *)
Fixpoint count_fields (in_word : bool) (s : str) : nat :=
  match s with
  | [] => 0
  | c :: s' =>
      if isspace c then count_fields false s'
      else if in_word then count_fields true s'
      else S (count_fields true s')
  end.

(** [len(s.split(sep))] for a one-character separator and non-empty [s]:
    one more than the number of separators. *)
Definition count_split (sep : char) (s : str) : nat :=
  S (length (filter (fun c => c = sep) s)).

(** ** Text cleaning ([clean_text]) *)

(** The two-character patterns of the last two substitutions. *)
Definition hyphen_space (c d : char) : bool := (c =? 45) && (d =? 32).
Definition lower_upper (c d : char) : bool := is_ascii_lower c && is_ascii_upper d.

(** [re.sub(P+, r, s)] for a character class [P] and a one-character
    replacement [r]: each maximal run of [P] becomes one [r]. [in_run]
    tells whether the previous code point was in the class. *)
Fixpoint sub_runs (P : char -> bool) (r : char) (in_run : bool) (s : str) : str :=
  match s with
  | [] => []
  | c :: s' =>
      if P c then (if in_run then sub_runs P r true s' else r :: sub_runs P r true s')
      else c :: sub_runs P r false s'
  end.

(** [text.replace('- ', '')]: the occurrences of hyphen, space are removed
    from left to right, without overlap. *)
Fixpoint remove_hyphen_space (s : str) : str :=
  match s with
  | [] => []
  | c :: s' =>
      match s' with
      | d :: s'' =>
          if hyphen_space c d then remove_hyphen_space s''
          else c :: remove_hyphen_space s'
      | [] => [c]
      end
  end.

(** [re.sub(r'(?<=[a-z])(?=[A-Z])', ' ', text)]: a space is inserted at
    every position that has a lower-case ASCII letter on its left and an
    upper-case one on its right. *)
Fixpoint split_camel (s : str) : str :=
  match s with
  | [] => []
  | c :: s' =>
      match s' with
      | d :: _ =>
          if lower_upper c d then c :: 32 :: split_camel s'
          else c :: split_camel s'
      | [] => [c]
      end
  end.

(** The punctuation that the character class of the third substitution
    lists after [\w] and [\s]: full stop, comma, exclamation and question
    marks, semicolon, colon, hyphen, apostrophe, double quote, the two
    parentheses and the at sign. *)
Definition safe_punct : list char :=
  [46; 44; 33; 63; 59; 58; 45; 39; 34; 40; 41; 64].

Section clean_text.
Context `{UnicodeData}.

(** A code point that the negated class does not match, and that
    [re.sub] therefore keeps. *)
Definition kept (c : char) : bool :=
  isword c || isspace c || existsb (N.eqb c) safe_punct.

Definition clean_text (text : str) : str :=
  match text with
  | [] => []
  | _ =>
      let text := sub_runs isspace 32 false text in
      let text := sub_runs (N.eqb 10) 10 false text in
      let text := List.filter kept text in
      let text := remove_hyphen_space text in
      let text := split_camel text in
      strip text
  end.
End clean_text.

(** ** Exceptions, floats, dictionaries *)

(** The outcome of a computation that may raise: [Raise msg] carries
    [str(e)] of the exception. *)
Inductive result (A : Type) : Type :=
  | Ok (a : A)
  | Raise (msg : str).
Arguments Ok {A} a.
Arguments Raise {A} msg.

#[global] Instance result_ret : MRet result := fun A a => Ok a.
#[global] Instance result_bind : MBind result := fun A B f m =>
  match m with
  | Ok a => f a
  | Raise msg => Raise msg
  end.

#[global] Instance result_fmap : FMap result := fun A B f m =>
  match m with
  | Ok a => Ok (f a)
  | Raise msg => Raise msg
  end.

(** A Python [float]: not-a-number, the two infinities, or a finite value,
    which is a rational number. *)
Inductive pyfloat : Type :=
  | FNaN
  | FNegInf
  | FFin (q : Q)
  | FPosInf.

(** [x >= n] for a float [x] and an integer literal [n]. Every comparison
    with not-a-number is false. *)
Definition float_ge_int (x : pyfloat) (n : Z) : bool :=
  match x with
  | FNaN | FNegInf => false
  | FFin q => Qle_bool (inject_Z n) q
  | FPosInf => true
  end.

(** [x <= y] on floats. *)
Definition float_le (x y : pyfloat) : bool :=
  match x, y with
  | FNaN, _ | _, FNaN => false
  | FNegInf, _ => true
  | _, FPosInf => true
  | FFin p, FFin q => Qle_bool p q
  | _, _ => false
  end.

(** [a / b] on non-negative integers: the quotient, [ZeroDivisionError]
    when [b] is zero. The quotient is kept exact; Python rounds it to the
    nearest double. *)
Definition true_div (a b : nat) : result pyfloat :=
  match b with
  | O => Raise (py "division by zero")
  | S _ => Ok (FFin (Z.of_nat a # Pos.of_nat b))
  end.

(** The values that the dictionaries of the processor hold. A [dict] is
    the list of its items in insertion order, with distinct keys. *)
#[warnings="-register-all"]
Inductive value : Type :=
  | VNone
  | VBool (b : bool)
  | VInt (n : Z)
  | VFloat (x : pyfloat)
  | VStr (s : str)
  | VList (l : list value)
  | VDict (d : list (str * value)).

Definition dict := list (str * value).

(** [d.get(k)], and [d.get(k, default)]. *)
Fixpoint dict_lookup (d : dict) (k : str) : option value :=
  match d with
  | [] => None
  | (k', v) :: d' => if str_eqb k' k then Some v else dict_lookup d' k
  end.

Definition dict_get (d : dict) (k : str) (default : value) : value :=
  match dict_lookup d k with
  | Some v => v
  | None => default
  end.

Definition len (s : str) : value := VInt (Z.of_nat (length s)).
Definition strs (l : list str) : value := VList (map VStr l).

(** What the module writes to its logger, and the parsers it opens, in
    the order in which that happens. *)
Inductive event : Type :=
  | OpenPdfplumber (data : bytes)
  | OpenPyPDF2 (data : bytes)
  | LogInfo (msg : str)
  | LogWarning (msg : str)
  | LogError (msg : str).

(** ** The libraries *)

(** What iterating over the pages of an opened document yields: the page
    texts in order and then either the end of the document, or an
    exception after the pages read so far ([Broken [] msg] when opening
    already fails). *)
Inductive pages (A : Type) : Type :=
  | Pages (texts : list A)
  | Broken (texts : list A) (msg : str).
Arguments Pages {A} texts.
Arguments Broken {A} texts msg.

(** pdfplumber ([page.extract_text()] may be [None]), PyPDF2, and
    [open(path, 'rb').read()]. *)
Class PdfLibs := {
  pdfplumber_pages : bytes -> pages (option str);
  pypdf2_pages : bytes -> pages str;
  read_file : str -> result bytes
}.

(** nltk: the two tokenizers and [stopwords.words('english')], which raises
    [LookupError] when the corpus is not installed. *)
Class Nltk := {
  sent_tokenize : str -> result (list str);
  word_tokenize : str -> result (list str);
  stopwords_english : result (list str)
}.

(** textstat. *)
Class Textstat := {
  flesch_reading_ease : str -> result pyfloat;
  flesch_kincaid_grade : str -> result pyfloat;
  automated_readability_index : str -> result pyfloat
}.

(** ** [collections.Counter] *)

(** [c[w] += 1] on a counter held as its items in insertion order. *)
Fixpoint counter_add (w : str) (c : list (str * nat)) : list (str * nat) :=
  match c with
  | [] => [(w, 1%nat)]
  | (k, n) :: c' => if str_eqb k w then (k, S n) :: c' else (k, n) :: counter_add w c'
  end.

(** [Counter(words)]. *)
Definition Counter (words : list str) : list (str * nat) :=
  foldl (fun c w => counter_add w c) [] words.

(** [sorted(items, key=itemgetter(1), reverse=True)]: descending counts,
    items of equal count in their original order. *)
Fixpoint insert_desc (x : str * nat) (l : list (str * nat)) : list (str * nat) :=
  match l with
  | [] => [x]
  | y :: l' => if (x.2 <? y.2)%nat then y :: insert_desc x l' else x :: l
  end.

Definition sorted_desc (items : list (str * nat)) : list (str * nat) :=
  foldr insert_desc [] items.

(** [c.most_common(n)] for an integer [n], which is
    [heapq.nlargest(n, c.items(), key=itemgetter(1))]: the first [n] items
    of the descending order, none when [n] is not positive. *)
Definition most_common (c : list (str * nat)) (n : Z) : list (str * nat) :=
  take (Z.to_nat n) (sorted_desc c).

(** ** [EnhancedPDFProcessor] *)

Section processor.
Context `{UnicodeData, PdfLibs, Nltk, Textstat}.

(** [__init__]: the English stop words of nltk, or the built-in list
    when the corpus is missing. *)
Definition fallback_stop_words : list str :=
  map py ["the"; "a"; "an"; "and"; "or"; "but"; "in"; "on"; "at"; "to";
          "for"; "of"; "with"; "by"]%string.

Definition stop_words : gset str :=
  match stopwords_english with
  | Ok ws => list_to_set ws
  | Raise _ => list_to_set fallback_stop_words
  end.

(** The first loop of [extract_text_from_bytes]: the text of every page
    that has some, each followed by a newline. *)
Definition plumber_text (texts : list (option str)) : str :=
  flat_map (fun page_text =>
              match page_text with
              | Some (c :: t) => (c :: t) ++ [10]
              | _ => []
              end) texts.

(** The second loop: every page text followed by a newline. *)
Definition pypdf2_text (texts : list str) : str :=
  flat_map (fun page_text => page_text ++ [10]) texts.

Definition extract_text_from_bytes (pdf_bytes : bytes) : str * list event :=
  match pdfplumber_pages pdf_bytes with
  | Pages texts => (plumber_text texts, [OpenPdfplumber pdf_bytes])
  | Broken texts e =>
      let text := plumber_text texts in
      let warning :=
        LogWarning (py "pdfplumber extraction failed: " ++ e ++ py ", trying PyPDF2") in
      match pypdf2_pages pdf_bytes with
      | Pages texts2 =>
          (text ++ pypdf2_text texts2,
           [OpenPdfplumber pdf_bytes; warning; OpenPyPDF2 pdf_bytes])
      | Broken _ e2 =>
          (py "Error: Could not extract text from PDF",
           [OpenPdfplumber pdf_bytes; warning; OpenPyPDF2 pdf_bytes;
            LogError (py "PyPDF2 extraction also failed: " ++ e2)])
      end
  end.

Definition extract_text_from_file (pdf_path : str) : result (str * list event) :=
  data ← read_file pdf_path; mret (extract_text_from_bytes data).

(** The ladder of [analyze_readability] on the Flesch reading-ease
    score. *)
Definition readability_level (fre_score : pyfloat) : str :=
  if float_ge_int fre_score 90 then py "Very Easy"
  else if float_ge_int fre_score 80 then py "Easy"
  else if float_ge_int fre_score 70 then py "Fairly Easy"
  else if float_ge_int fre_score 60 then py "Standard"
  else if float_ge_int fre_score 50 then py "Fairly Difficult"
  else if float_ge_int fre_score 30 then py "Difficult"
  else py "Very Difficult".

(** The [try] block of [analyze_readability]. *)
Definition readability_scores (text : str) : result dict :=
  sentences ← sent_tokenize text;
  words ← word_tokenize text;
  fre ← flesch_reading_ease text;
  fkg ← flesch_kincaid_grade text;
  ari ← automated_readability_index text;
  let alpha := List.filter isalpha words in
  avg_sentence_length ←
    match sentences with
    | [] => mret (VInt 0)
    | _ => VFloat <$> true_div (length words) (length sentences)
    end;
  avg_word_length ←
    match words with
    | [] => mret (VInt 0)
    | _ => VFloat <$> true_div (list_sum (map length alpha)) (length alpha)
    end;
  mret [ (py "flesch_reading_ease", VFloat fre);
         (py "flesch_kincaid_grade", VFloat fkg);
         (py "automated_readability_index", VFloat ari);
         (py "word_count", VInt (Z.of_nat (length alpha)));
         (py "sentence_count", VInt (Z.of_nat (length sentences)));
         (py "avg_sentence_length", avg_sentence_length);
         (py "avg_word_length", avg_word_length);
         (py "readability_level", VStr (readability_level fre)) ].

Definition analyze_readability (text : str) : dict * list event :=
  if bool_decide (text = []) || (length (strip text) <? 10)%nat then
    ([ (py "error", VStr (py "Text too short for analysis"));
       (py "word_count", VInt 0);
       (py "sentence_count", VInt 0) ], [])
  else
    match readability_scores text with
    | Ok scores => (scores, [])
    | Raise e =>
        ([ (py "error", VStr e);
           (py "word_count", VInt (Z.of_nat (count_fields false text)));
           (py "sentence_count", VInt (Z.of_nat (count_split 46 text))) ],
         [LogError (py "Error calculating readability: " ++ e)])
    end.

(** The test of the comprehension in [extract_key_phrases]. *)
Definition key_word (word : str) : bool :=
  isalpha word && (2 <? length word)%nat && bool_decide (word ∉ stop_words).

Definition extract_key_phrases (text : str) (top_n : Z) : list str * list event :=
  match text with
  | [] => ([], [])
  | _ =>
      match word_tokenize (lower text) with
      | Ok words =>
          let words := List.filter key_word words in
          let word_freq := Counter words in
          (fst <$> most_common word_freq top_n, [])
      | Raise e => ([], [LogError (py "Error extracting key phrases: " ++ e)])
      end
  end.

(** The first statement of the [try] block of [process_pdf]: the raw
    text, from the path when one is given, else from the bytes, or the
    exception raised, and what was logged on the way. An empty path or
    empty bytes count as not given. *)
Definition raw_text_of (pdf_path : option str) (pdf_bytes : option bytes)
  : result str * list event :=
  match pdf_path, pdf_bytes with
  | Some (c :: p), _ =>
      let info := LogInfo (py "Processing PDF file: " ++ c :: p) in
      match extract_text_from_file (c :: p) with
      | Ok (text, log) => (Ok text, info :: log)
      | Raise e => (Raise e, [info])
      end
  | _, Some (b :: data) =>
      let '(text, log) := extract_text_from_bytes (b :: data) in
      (Ok text, LogInfo (py "Processing PDF from bytes") :: log)
  | _, _ => (Raise (py "Either pdf_path or pdf_bytes must be provided"), [])
  end.

Definition default_top_n : Z := 15.

Definition process_pdf (pdf_path : option str) (pdf_bytes : option bytes)
  : dict * list event :=
  match raw_text_of pdf_path pdf_bytes with
  | (Ok raw_text, log) =>
      if bool_decide (raw_text = []) || startswith (py "Error:") raw_text then
        ([ (py "error", VStr (py "Failed to extract text from PDF"));
           (py "raw_text", VStr raw_text);
           (py "success", VBool false) ], log)
      else
        let cleaned_text := clean_text raw_text in
        let '(readability_metrics, log1) := analyze_readability cleaned_text in
        let '(key_phrases, log2) := extract_key_phrases cleaned_text default_top_n in
        ([ (py "raw_text", VStr raw_text);
           (py "cleaned_text", VStr cleaned_text);
           (py "readability_metrics", VDict readability_metrics);
           (py "key_phrases", strs key_phrases);
           (py "text_length", len cleaned_text);
           (py "word_count", dict_get readability_metrics (py "word_count") (VInt 0));
           (py "success", VBool true) ], log ++ log1 ++ log2)
  | (Raise e, log) =>
      ([ (py "error", VStr e);
         (py "success", VBool false);
         (py "raw_text", VStr []);
         (py "cleaned_text", VStr []) ],
       log ++ [LogError (py "Error processing PDF: " ++ e)])
  end.
End processor.

(** ** The analysis cache ([agents/flask_app.py]) *)

Local Open Scope Z_scope.

(** [json.dumps] and [json.loads]; the latter raises on text that is not
    JSON. *)
Class Json := {
  json_dumps : value -> str;
  json_loads : str -> result value
}.

(** A row of the table [analysis_cache]. The column [content_hash] is
    [UNIQUE] and is the key under which the table holds the row. The two
    [DATETIME] columns hold [CURRENT_TIMESTAMP] values, which have a
    resolution of one second: they are counted in seconds. *)
Record row := {
  id : Z;
  analysis_result : str;
  created_at : Z;
  accessed_count : Z;
  last_accessed : Z
}.

(** The database file: the table, and the largest row id handed out so
    far ([AUTOINCREMENT]). *)
Record database := {
  analysis_cache : gmap str row;
  sqlite_sequence : Z
}.

Definition empty_database : database :=
  {| analysis_cache := ∅; sqlite_sequence := 0 |}.

Definition hours (n : Z) : Z := n * 3600.
Definition days (n : Z) : Z := n * 24 * 3600.

(** [COALESCE((SELECT accessed_count FROM analysis_cache
              WHERE content_hash = ?), 0)]. *)
Definition coalesce_accessed_count (db : database) (content_hash : str) : Z :=
  match analysis_cache db !! content_hash with
  | Some r => accessed_count r
  | None => 0
  end.

Section cache.
Context `{Json}.

(** [cache_analysis], run when the clock reads [now]: [INSERT OR REPLACE]
    removes the row that holds the same [content_hash], if any, and
    inserts the new one under a fresh row id. *)
Definition cache_analysis (now : Z) (content_hash : str) (result : value)
    (db : database) : database :=
  let rowid := sqlite_sequence db + 1 in
  {| analysis_cache :=
       <[content_hash :=
           {| id := rowid;
              analysis_result := json_dumps result;
              created_at := now;
              accessed_count := coalesce_accessed_count db content_hash + 1;
              last_accessed := now |}]> (analysis_cache db);
     sqlite_sequence := rowid |}.

(** The [UPDATE] statement of [get_cached_analysis]. *)
Definition touch (now : Z) (r : row) : row :=
  {| id := id r;
     analysis_result := analysis_result r;
     created_at := created_at r;
     accessed_count := accessed_count r + 1;
     last_accessed := now |}.

(** [get_cached_analysis]: the clock reads [now] when the [SELECT] runs
    and [now'] when the [UPDATE] runs. The result is [None] also when
    [json.loads] raises, which happens after the update is committed. *)
Definition get_cached_analysis (now now' : Z) (content_hash : str)
    (db : database) : database * option value :=
  match analysis_cache db !! content_hash with
  | Some r =>
      if bool_decide (now - hours 24 < created_at r) then
        let db' := {| analysis_cache := <[content_hash := touch now' r]> (analysis_cache db);
                      sqlite_sequence := sqlite_sequence db |} in
        match json_loads (analysis_result r) with
        | Ok v => (db', Some v)
        | Raise _ => (db', None)
        end
      else (db, None)
  | None => (db, None)
  end.
End cache.

(** [cleanup_old_cache], run when the clock reads [now]: the table without
    the rows created more than seven days before, and what is written to
    the log, which is the number of rows deleted ([cursor.rowcount]) when
    there are any. The function returns nothing. *)
Definition cleanup_old_cache (now : Z) (db : database) : database * list event :=
  let kept := filter (λ kr : str * row, ¬ created_at kr.2 < now - days 7)
                (analysis_cache db) in
  let deleted := (size (analysis_cache db) - size kept)%nat in
  ({| analysis_cache := kept; sqlite_sequence := sqlite_sequence db |},
   if bool_decide (0 < deleted)%nat then
     [LogInfo (py "Cleaned up "
               ++ py (DecimalString.NilZero.string_of_uint (Nat.to_uint deleted))
               ++ py " old cache entries")]
   else []).

(** ** Predicates and orders used to state the properties *)

(** Whether the first code point is white space, and whether two adjacent
    code points are related by [P]. *)
Definition starts_with_space (s : str) : bool :=
  match s with
  | c :: _ => isspace c
  | [] => false
  end.

Fixpoint has_pair (P : char -> char -> bool) (s : str) : bool :=
  match s with
  | [] => false
  | c :: s' =>
      match s' with
      | d :: _ => P c d
      | [] => false
      end || has_pair P s'
  end.

(** All white space is single spaces: every white-space code point is a
    space that is not followed by white space. *)
Fixpoint well_spaced (s : str) : bool :=
  match s with
  | [] => true
  | c :: s' =>
      (negb (isspace c) || ((c =? 32)%N && negb (starts_with_space s')))
      && well_spaced s'
  end.

(** The seven levels from the easiest to the hardest. *)
Definition difficulty (level : str) : nat :=
  if str_eqb level (py "Very Easy") then 0
  else if str_eqb level (py "Easy") then 1
  else if str_eqb level (py "Fairly Easy") then 2
  else if str_eqb level (py "Standard") then 3
  else if str_eqb level (py "Fairly Difficult") then 4
  else if str_eqb level (py "Difficult") then 5
  else 6.

(** How often [w] occurs in a token stream, and the position of its first
    occurrence (the length of the stream when it does not occur). *)
Definition frequency (w : str) (words : list str) : nat :=
  length (filter (λ x, x = w) words).

Fixpoint first_index (w : str) (words : list str) : nat :=
  match words with
  | [] => 0
  | x :: words' => if str_eqb x w then 0 else S (first_index w words')
  end.

(** The distinct tokens of a stream, in the order of their first
    occurrences. *)
Definition first_occurrences (words : list str) : list str :=
  reverse (remove_dups (reverse words)).

(** [a] comes before [b] in the ranking of a stream: it is more frequent,
    or as frequent and first seen earlier. *)
Definition ranked_before (words : list str) (a b : str) : Prop :=
  (frequency b words < frequency a words)%nat
  ∨ (frequency a words = frequency b words
     ∧ (first_index a words < first_index b words)%nat).

(** The same order on the items of a counter. *)
Definition entry_before (words : list str) (a b : str * nat) : Prop :=
  (b.2 < a.2)%nat
  ∨ (a.2 = b.2 ∧ (first_index a.1 words < first_index b.1 words)%nat).

(** ** Stand-ins for the libraries

    Small implementations of the library interfaces, on which the
    functions above can be run: a character database without letters above
    the ASCII range; a document format in which the bytes after the magic
    number [%PDF] are the text of the only page; tokenizers that split at
    white space and at full stops, with no stop-word corpus installed; a
    reading-ease score that falls with the number of words. *)

Definition ascii_letters_only : UnicodeData :=
  {| uni_isalnum := λ _, false; uni_isalpha := λ _, false; uni_lower := λ c, [c] |}.

Definition one_page_documents : PdfLibs :=
  {| pdfplumber_pages := λ data,
       if startswith (py "%PDF") data then Pages [Some (drop 4 data)]
       else Broken [] (py "No /Root object! - Is this really a PDF?");
     pypdf2_pages := λ data,
       if startswith (py "%PDF") data then Pages [drop 4 data]
       else Broken [] (py "EOF marker not found");
     read_file := λ _, Raise (py "No such file or directory") |}.

(** Damaged documents: pdfplumber raises on opening them, and PyPDF2
    reads one page with the text that precedes the end marker. *)
Definition damaged_documents : PdfLibs :=
  {| pdfplumber_pages := λ _,
       Broken [] (py "No /Root object! - Is this really a PDF?");
     pypdf2_pages := λ data, Pages [take (length data - 6) data];
     read_file := λ _, Raise (py "No such file or directory") |}.

(** [s.split()] and [s.split(sep)], with the field being read in [field]. *)
Fixpoint split_fields (sep : char -> bool) (keep_empty : bool) (field : str) (s : str)
  : list str :=
  match s with
  | [] => if keep_empty || bool_decide (field ≠ []) then [field] else []
  | c :: s' =>
      if sep c then
        (if keep_empty || bool_decide (field ≠ []) then [field] else [])
        ++ split_fields sep keep_empty [] s'
      else split_fields sep keep_empty (field ++ [c]) s'
  end.

Definition splitting_tokenizers : Nltk :=
  {| sent_tokenize := λ text,
       Ok (List.filter (λ s, bool_decide (strip s ≠ []))
             (split_fields (N.eqb 46) true [] text));
     word_tokenize := λ text, Ok (split_fields isspace false [] text);
     stopwords_english := Raise (py "Resource stopwords not found.") |}.

Definition word_count_scores : Textstat :=
  {| flesch_reading_ease := λ text,
       Ok (FFin (inject_Z (100 - 5 * Z.of_nat (count_fields false text))));
     flesch_kincaid_grade := λ text,
       Ok (FFin (inject_Z (Z.of_nat (count_fields false text))));
     automated_readability_index := λ text,
       Ok (FFin (inject_Z (Z.of_nat (count_fields false text)))) |}.

(** A stand-in for [json]: the text that [json.dumps] writes with its
    default separators and ASCII escapes, and a reader of that text. A
    finite float is written as the exact fraction that it stands for,
    numerator and denominator separated by a slash, where Python writes
    the shortest decimal that reads back as the same double. *)

Local Open Scope N_scope.

Definition hex_char (d : N) : char := if d <? 10 then 48 + d else 87 + d.

(** [\uXXXX] for a code unit. *)
Definition escape_unit (u : N) : str :=
  [92; 117; hex_char (u / 4096 mod 16); hex_char (u / 256 mod 16);
   hex_char (u / 16 mod 16); hex_char (u mod 16)].

Definition escape_char (c : char) : str :=
  if c =? 34 then [92; 34]
  else if c =? 92 then [92; 92]
  else if c =? 10 then [92; 110]
  else if c =? 13 then [92; 114]
  else if c =? 9 then [92; 116]
  else if c =? 8 then [92; 98]
  else if c =? 12 then [92; 102]
  else if (32 <=? c) && (c <=? 126) then [c]
  else if c <? 65536 then escape_unit c
  else escape_unit (55296 + (c - 65536) / 1024)
       ++ escape_unit (56320 + (c - 65536) mod 1024).

Definition write_string (s : str) : str := [34] ++ flat_map escape_char s ++ [34].

Definition write_int (n : Z) : str :=
  py (DecimalString.NilZero.string_of_int (Z.to_int n)).

Definition write_float (x : pyfloat) : str :=
  match x with
  | FNaN => py "NaN"
  | FPosInf => py "Infinity"
  | FNegInf => py "-Infinity"
  | FFin q => write_int (Qnum q) ++ [47] ++ write_int (Zpos (Qden q))
  end.

(** The items of a list or of a dictionary, separated by a comma and a
    space. *)
Fixpoint join_items (items : list str) : str :=
  match items with
  | [] => []
  | [item] => item
  | item :: items' => item ++ [44; 32] ++ join_items items'
  end.

Fixpoint write_value (v : value) : str :=
  match v with
  | VNone => py "null"
  | VBool true => py "true"
  | VBool false => py "false"
  | VInt n => write_int n
  | VFloat x => write_float x
  | VStr s => write_string s
  | VList l => [91] ++ join_items (map write_value l) ++ [93]
  | VDict d =>
      [123]
      ++ join_items (map (λ kv : str * value,
                            write_string kv.1 ++ [58; 32] ++ write_value kv.2) d)
      ++ [125]
  end.

Definition hex_value (c : char) : option N :=
  if (48 <=? c) && (c <=? 57) then Some (c - 48)
  else if (97 <=? c) && (c <=? 102) then Some (c - 87)
  else if (65 <=? c) && (c <=? 70) then Some (c - 55)
  else None.

(** The code unit of four hexadecimal digits. *)
Definition read_unit (s : str) : option (N * str) :=
  match s with
  | a :: b :: c :: d :: s' =>
      a ← hex_value a; b ← hex_value b; c ← hex_value c; d ← hex_value d;
      Some (a * 4096 + b * 256 + c * 16 + d, s')
  | _ => None
  end.

(** The characters of a string up to its closing quote, which is
    consumed. The escape of a high surrogate followed by the escape of a
    low surrogate is read as the one character that the pair encodes. *)
Fixpoint read_chars (fuel : nat) (s : str) : option (str * str) :=
  match fuel with
  | O => None
  | S fuel =>
      match s with
      | [] => None
      | 34 :: s' => Some ([], s')
      | 92 :: e :: s' =>
          '(c, s') ←
            (if e =? 110 then Some (10, s')
             else if e =? 114 then Some (13, s')
             else if e =? 116 then Some (9, s')
             else if e =? 98 then Some (8, s')
             else if e =? 102 then Some (12, s')
             else if e =? 117 then
               '(u, s1) ← read_unit s';
               if (55296 <=? u) && (u <? 56320) then
                 match s1 with
                 | 92 :: 117 :: s2 =>
                     '(l, s3) ← read_unit s2;
                     if (56320 <=? l) && (l <? 57344) then
                       Some (65536 + (u - 55296) * 1024 + (l - 56320), s3)
                     else Some (u, s1)
                 | _ => Some (u, s1)
                 end
               else Some (u, s1)
             else Some (e, s'));
          '(t, rest) ← read_chars fuel s';
          Some (c :: t, rest)
      | c :: s' => '(t, rest) ← read_chars fuel s'; Some (c :: t, rest)
      end
  end.

(** The longest prefix of digits, with a sign in front when there is
    one. *)
Fixpoint read_digits (s : str) : str * str :=
  match s with
  | c :: s' =>
      if is_ascii_digit c then let '(ds, rest) := read_digits s' in (c :: ds, rest)
      else ([], s)
  | [] => ([], [])
  end.

Definition read_int (s : str) : option (Z * str) :=
  let '(sign, s) := match s with
                    | 45 :: s' => ([45], s')
                    | _ => ([], s)
                    end in
  let '(ds, rest) := read_digits s in
  match ds with
  | [] => None
  | _ =>
      n ← DecimalString.NilZero.int_of_string
             (String.string_of_list_ascii (map Ascii.ascii_of_N (sign ++ ds)));
      Some (Z.of_int n, rest)
  end.

Definition read_number (s : str) : option (value * str) :=
  '(n, rest) ← read_int s;
  match rest with
  | 47 :: rest' =>
      '(d, rest'') ← read_int rest';
      match d with
      | Zpos d => Some (VFloat (FFin (n # d)), rest'')
      | _ => None
      end
  | _ => Some (VInt n, rest)
  end.

Definition skip_spaces (s : str) : str := lstrip s.

(** Which part of the grammar to read: a value, the elements of a list
    after its bracket, or the members of a dictionary after its brace. *)
Inductive production : Type := AValue | Elements | Members.

Fixpoint read (fuel : nat) (what : production) (s : str) : option (value * str) :=
  match fuel with
  | O => None
  | S fuel =>
      let s := skip_spaces s in
      match what with
      | AValue =>
          if startswith (py "null") s then Some (VNone, drop 4 s)
          else if startswith (py "true") s then Some (VBool true, drop 4 s)
          else if startswith (py "false") s then Some (VBool false, drop 5 s)
          else if startswith (py "NaN") s then Some (VFloat FNaN, drop 3 s)
          else if startswith (py "Infinity") s then Some (VFloat FPosInf, drop 8 s)
          else if startswith (py "-Infinity") s then Some (VFloat FNegInf, drop 9 s)
          else if startswith [34] s then
            '(t, rest) ← read_chars (length s) (drop 1 s); Some (VStr t, rest)
          else if startswith [91; 93] s then Some (VList [], drop 2 s)
          else if startswith [123; 125] s then Some (VDict [], drop 2 s)
          else if startswith [91] s then read fuel Elements (drop 1 s)
          else if startswith [123] s then read fuel Members (drop 1 s)
          else read_number s
      | Elements =>
          '(v, rest) ← read fuel AValue s;
          let rest := skip_spaces rest in
          if startswith [93] rest then Some (VList [v], drop 1 rest)
          else if startswith [44] rest then
            tail ← read fuel Elements (drop 1 rest);
            match tail with
            | (VList l, rest') => Some (VList (v :: l), rest')
            | _ => None
            end
          else None
      | Members =>
          if startswith [34] s then
            '(k, rest) ← read_chars (length s) (drop 1 s);
            let rest := skip_spaces rest in
            if startswith [58] rest then
              '(v, rest) ← read fuel AValue (drop 1 rest);
              let rest := skip_spaces rest in
              if startswith [125] rest then Some (VDict [(k, v)], drop 1 rest)
              else if startswith [44] rest then
                tail ← read fuel Members (drop 1 rest);
                match tail with
                | (VDict d, rest') => Some (VDict ((k, v) :: d), rest')
                | _ => None
                end
              else None
            else None
          else None
      end
  end.

Definition read_value (s : str) : result value :=
  match read (2 * length s + 2) AValue s with
  | Some (v, rest) =>
      match skip_spaces rest with
      | [] => Ok v
      | _ => Raise (py "Extra data")
      end
  | None => Raise (py "Expecting value")
  end.

Definition text_json : Json :=
  {| json_dumps := write_value; json_loads := read_value |}.

Local Close Scope N_scope.

(** ** Sample data *)

(** A result of the shape that the serving layer caches. *)
Definition sample_result : value :=
  VDict [ (py "success", VBool true);
          (py "cleaned_text", VStr (py "John Doe. Software Engineer."));
          (py "readability_metrics",
           VDict [ (py "flesch_reading_ease", VFloat (FFin (551 # 10)));
                   (py "word_count", VInt 4);
                   (py "readability_level", VStr (py "Fairly Difficult")) ]);
          (py "key_phrases", VList [VStr (py "john"); VStr (py "software")]);
          (py "text_length", VInt 28);
          (py "word_count", VInt 4) ].

Definition sample_hash : str := py "9f86d081884c7d65".


(** ** Further notions for the cache *)

(** The row ids are those that an [AUTOINCREMENT] primary key hands out:
    positive, at most the recorded sequence value, and no two rows share
    one. *)
Definition rowids_consistent (db : database) : Prop :=
  0 ≤ sqlite_sequence db
  ∧ (∀ h r, analysis_cache db !! h = Some r → 0 < id r ≤ sqlite_sequence db)
  ∧ (∀ h1 h2 r1 r2,
       analysis_cache db !! h1 = Some r1 →
       analysis_cache db !! h2 = Some r2 →
       id r1 = id r2 → h1 = h2).

(** The range of an SQLite [INTEGER], which is a signed integer of 64
    bits. *)
Definition sqlite_integer (n : Z) : bool := (- 2 ^ 63 <=? n) && (n <? 2 ^ 63).

(** Successive calls of [get_cached_analysis] on one digest, each with
    the clock readings of its [SELECT] and of its [UPDATE]; the results
    are dropped. [accessed_count + 1] on the largest [INTEGER] gives a
    [REAL], which further additions of 1 leave as it is, where the table
    here counts on in the integers: the calls are followed as long as the
    count of the digest is an [INTEGER] before each of them, and [None]
    stands for the calls that come after. *)
Fixpoint get_repeatedly `{Json} (times : list (Z * Z)) (content_hash : str)
    (db : database) : option database :=
  match times with
  | [] => Some db
  | clock :: times =>
      if match analysis_cache db !! content_hash with
         | Some r => sqlite_integer (accessed_count r)
         | None => true
         end
      then get_repeatedly times content_hash
             (get_cached_analysis clock.1 clock.2 content_hash db).1
      else None
  end.

(** ** Content validation ([agents/flask_app.py]) *)

(** [sub in s] on strings: [sub] occurs in [s] as a substring. *)
Fixpoint contains (sub s : str) : bool :=
  startswith sub s
  || match s with
     | [] => false
     | _ :: s' => contains sub s'
     end.

Definition experience_keywords : list str :=
  map py ["experience"; "work"; "employment"; "job"; "position"; "role"]%string.

Definition skills_keywords : list str :=
  map py ["skills"; "abilities"; "competencies"; "technologies"]%string.

Section validation.
Context `{UnicodeData}.

Definition validate_resume_content (content : str) : bool * str :=
  if bool_decide (content = []) || (length (strip content) <? 50)%nat then
    (false, py "Resume content too short (minimum 50 characters required)")
  else if 50000 <? Z.of_nat (length content) then
    (false, py "Resume content too long (maximum 50,000 characters allowed)")
  else
    let content_lower := lower content in
    let has_experience_markers :=
      existsb (λ keyword, contains keyword content_lower) experience_keywords in
    let has_skills_markers :=
      existsb (λ keyword, contains keyword content_lower) skills_keywords in
    if negb (has_experience_markers || has_skills_markers) then
      (false, py "Content doesn't appear to be a resume (missing experience or skills sections)")
    else (true, py "Valid").
End validation.

(** A further stand-in for the document libraries: scanned documents, on
    which pdfplumber raises and PyPDF2 finds two pages without text. *)
Definition scanned_documents : PdfLibs :=
  {| pdfplumber_pages := λ _, Broken [] (py "No text layer");
     pypdf2_pages := λ _, Pages [[]; [32%N]];
     read_file := λ _, Raise (py "No such file or directory") |}.

(** ** The analyzer ([main.py]) *)

(** The truth value of a Python value. *)
Definition truthy (v : value) : bool :=
  match v with
  | VNone => false
  | VBool b => b
  | VInt n => negb (n =? 0)
  | VFloat (FFin q) => negb (Qeq_bool q 0)
  | VFloat _ => true
  | VStr s => negb (bool_decide (s = []))
  | VList l => match l with [] => false | _ => true end
  | VDict d => match d with [] => false | _ => true end
  end.

(** [type(v).__name__]. *)
Definition type_name (v : value) : str :=
  match v with
  | VNone => py "NoneType"
  | VBool _ => py "bool"
  | VInt _ => py "int"
  | VFloat _ => py "float"
  | VStr _ => py "str"
  | VList _ => py "list"
  | VDict _ => py "dict"
  end.

(** The message of the [AttributeError] for a missing method. *)
Definition no_attribute (v : value) (name : str) : str :=
  [39%N] ++ type_name v ++ py "' object has no attribute '" ++ name ++ [39%N].

(** [d[k]]: a missing key raises [KeyError], whose message is the key in
    quotes. *)
Definition getitem (d : dict) (k : str) : result value :=
  match dict_lookup d k with
  | Some v => Ok v
  | None => Raise ([39%N] ++ k ++ [39%N])
  end.

(** [v.strip()] and [v.get(k, default)] on a value of any type. *)
Definition value_strip (v : value) : result str :=
  match v with
  | VStr s => Ok (strip s)
  | _ => Raise (no_attribute v (py "strip"))
  end.

Definition value_get (v : value) (k : str) (default : value) : result value :=
  match v with
  | VDict d => Ok (dict_get d k default)
  | _ => Raise (no_attribute v (py "get"))
  end.

(** The builtin [str()], of which only the value on strings matters
    here. *)
Class Builtins := {
  str_of : value -> str;
  str_of_str : ∀ s, str_of (VStr s) = s
}.

(** [ResumeCrew.kickoff(inputs=inputs)]: the result of the crew, or the
    exception that it raises. *)
Class CrewRun := {
  kickoff : dict -> result value
}.

Section analyzer.
Context `{UnicodeData, PdfLibs, Nltk, Textstat, Builtins, CrewRun}.

(** [user_profile or {}]. *)
Definition profile_or_empty (user_profile : option dict) : value :=
  match user_profile with
  | Some (item :: d) => VDict (item :: d)
  | _ => VDict []
  end.

(** The dictionary of an [except] branch. *)
Definition analysis_failure (e message : str) : dict :=
  [ (py "success", VBool false);
    (py "error", VStr e);
    (py "message", VStr message) ].

(** [analyze_resume_from_text]: the result, and the inputs with which
    the crew was started. *)
Definition analyze_resume_from_text (resume_text : str) (user_profile : option dict)
  : dict * list dict :=
  if bool_decide (strip resume_text = []) then
    (analysis_failure (py "Resume text cannot be empty") (py "Text analysis failed"), [])
  else
    let readability := (analyze_readability resume_text).1 in
    let key_phrases := (extract_key_phrases resume_text default_top_n).1 in
    let inputs :=
      [ (py "resume_text", VStr resume_text);
        (py "user_profile", profile_or_empty user_profile);
        (py "readability_metrics", VDict readability);
        (py "key_phrases", strs key_phrases) ] in
    match kickoff inputs with
    | Ok crew_result =>
        ([ (py "success", VBool true);
           (py "crew_analysis", crew_result);
           (py "readability_analysis",
            VDict [ (py "metrics", VDict readability);
                    (py "key_phrases", strs key_phrases);
                    (py "text_length", len resume_text);
                    (py "readability_level",
                     dict_get readability (py "readability_level")
                       (VStr (py "Unknown"))) ]);
           (py "input_type", VStr (py "text"));
           (py "message", VStr (py "Analysis completed successfully")) ],
         [inputs])
    | Raise e => (analysis_failure e (py "Text analysis failed"), [inputs])
    end.

(** The statements of [analyze_resume_from_pdf] before the crew is
    started. *)
Definition pdf_inputs (pdf_data : dict) (user_profile : option dict) : result dict :=
  if negb (truthy (dict_get pdf_data (py "success") (VBool false))) then
    Raise (py "PDF processing failed: "
           ++ str_of (dict_get pdf_data (py "error") (VStr (py "Unknown error"))))
  else
    resume_text ← getitem pdf_data (py "cleaned_text");
    stripped ← value_strip resume_text;
    if bool_decide (stripped = []) then
      Raise (py "No text could be extracted from the PDF")
    else
      readability_metrics ← getitem pdf_data (py "readability_metrics");
      key_phrases ← getitem pdf_data (py "key_phrases");
      text_length ← getitem pdf_data (py "text_length");
      word_count ← getitem pdf_data (py "word_count");
      mret [ (py "resume_text", resume_text);
             (py "user_profile", profile_or_empty user_profile);
             (py "readability_metrics", readability_metrics);
             (py "key_phrases", key_phrases);
             (py "pdf_metadata",
              VDict [ (py "text_length", text_length);
                      (py "word_count", word_count) ]) ].

(** The dictionary that it returns after the crew has finished. *)
Definition pdf_analysis (pdf_data : dict) (crew_result : value) : result dict :=
  metrics ← getitem pdf_data (py "readability_metrics");
  key_phrases ← getitem pdf_data (py "key_phrases");
  metrics' ← getitem pdf_data (py "readability_metrics");
  level ← value_get metrics' (py "readability_level") (VStr (py "Unknown"));
  mret [ (py "success", VBool true);
         (py "crew_analysis", crew_result);
         (py "pdf_processing", VDict pdf_data);
         (py "readability_analysis",
          VDict [ (py "metrics", metrics);
                  (py "key_phrases", key_phrases);
                  (py "readability_level", level) ]);
         (py "input_type", VStr (py "pdf"));
         (py "message", VStr (py "PDF analysis completed successfully")) ].

Definition analyze_resume_from_pdf (pdf_path : option str) (pdf_bytes : option bytes)
    (user_profile : option dict) : dict * list dict :=
  let pdf_data := (process_pdf pdf_path pdf_bytes).1 in
  match pdf_inputs pdf_data user_profile with
  | Raise e => (analysis_failure e (py "PDF analysis failed"), [])
  | Ok inputs =>
      match kickoff inputs ≫= pdf_analysis pdf_data with
      | Ok analysis => (analysis, [inputs])
      | Raise e => (analysis_failure e (py "PDF analysis failed"), [inputs])
      end
  end.
End analyzer.

(** Stand-ins: [str()] that leaves strings as they are and writes other
    values as the serialisation does, and a crew that answers with the
    number of key phrases it was given. *)
Definition text_builtins : Builtins :=
  {| str_of := λ v, match v with VStr s => s | _ => write_value v end;
     str_of_str := λ s, eq_refl |}.

Definition counting_crew : CrewRun :=
  {| kickoff := λ inputs,
       match dict_lookup inputs (py "key_phrases") with
       | Some (VList l) => Ok (VInt (Z.of_nat (length l)))
       | _ => Raise (py "no key phrases")
       end |}.

(** ** The text route ([agents/flask_app.py]) *)

(** [content.encode()], which raises on a text without UTF-8 encoding, and
    [hashlib.sha256(data).hexdigest()]. *)
Class Hashlib := {
  encode_utf8 : str -> result bytes;
  sha256_hexdigest : bytes -> str
}.

(** The imported [ResumeAnalyzer], [None] when the import failed:
    [ResumeAnalyzer().analyze_resume_from_text(text)]. *)
Class ResumeService := {
  resume_analyzer : option (str -> result value)
}.

Definition get_content_hash `{Hashlib} (content : str) : result str :=
  sha256_hexdigest <$> encode_utf8 content.

(** [d[k] = v]: the value of an existing key is replaced in place, a new
    key goes to the end. *)
Fixpoint dict_set (d : dict) (k : str) (v : value) : dict :=
  match d with
  | [] => [(k, v)]
  | (k', v') :: d' =>
      if str_eqb k' k then (k', v) :: d' else (k', v') :: dict_set d' k v
  end.

(** [k in data] for a string [k] and a truthy value [data]: a key of a
    dictionary, an element of a list, a substring of a string; [None]
    when the value is not iterable and the test raises. *)
Definition value_contains (data : value) (k : str) : option bool :=
  match data with
  | VDict d => Some (bool_decide (is_Some (dict_lookup d k)))
  | VList l => Some (existsb (λ x, match x with VStr s => str_eqb s k | _ => false end) l)
  | VStr s => Some (contains k s)
  | _ => None
  end.

(** [data[k]] for a string [k]: only a dictionary can be indexed by a
    string. *)
Definition value_getitem (data : value) (k : str) : option value :=
  match data with
  | VDict d => dict_lookup d k
  | _ => None
  end.

(** [len(v)], [None] when the value has no length. *)
Definition value_len (v : value) : option Z :=
  match v with
  | VStr s => Some (Z.of_nat (length s))
  | VList l => Some (Z.of_nat (length l))
  | VDict d => Some (Z.of_nat (length d))
  | _ => None
  end.

(** The body and the status of a response. *)
Definition response := (value * Z)%type.

Definition error_response (error code : str) (status : Z) : response :=
  (VDict [ (py "success", VBool false);
           (py "error", VStr error);
           (py "code", VStr code) ], status).

Section text_route.
Context `{UnicodeData, Json, Hashlib, ResumeService}.

(** [validate_resume_content] on whatever the request holds: a falsy
    value is too short, a truthy value that is not a string has no
    [strip] and raises ([None]). *)
Definition validate_value (content : value) : option (bool * str) :=
  match content with
  | VStr s => Some (validate_resume_content s)
  | _ =>
      if truthy content then None
      else Some (false, py "Resume content too short (minimum 50 characters required)")
  end.

(** [analyze_text] after a cache miss, from the test of
    [ResumeAnalyzer] on: the clock reads [now] when [cache_analysis]
    runs. *)
Definition analyze_text_uncached (now : Z) (resume_text content_hash : str)
    (db : database) : database * option response :=
  match resume_analyzer with
  | None =>
      (db, Some (error_response
                   (py "Resume analyzer service temporarily unavailable")
                   (py "SERVICE_UNAVAILABLE") 503))
  | Some analyze =>
      match analyze resume_text with
      | Raise _ => (db, None)
      | Ok (VDict result) =>
          let result :=
            dict_set result (py "analysis_id") (VStr (take 16 content_hash)) in
          let db :=
            if truthy (dict_get result (py "success") VNone)
            then cache_analysis now content_hash (VDict result) db
            else db in
          (db, Some (VDict result, 200))
      | Ok _ => (db, None)
      end
  end.

(** The [try] block of [analyze_text] on the parsed body of the request
    ([request.get_json()], which may raise), with the clock readings of
    the three statements on the cache: the table afterwards, and the
    response, or [None] when an exception was raised. The rows written
    to the analytics table and to the log are left out; the arguments
    of those calls are evaluated. *)
Definition analyze_text_try (body : result value) (now now' now'' : Z)
    (db : database) : database * option response :=
  match body with
  | Raise _ => (db, None)
  | Ok data =>
      let missing :=
        error_response (py "No resume text provided") (py "MISSING_TEXT") 400 in
      if negb (truthy data) then (db, Some missing)
      else
        match value_contains data (py "resume_text") with
        | None => (db, None)
        | Some false => (db, Some missing)
        | Some true =>
            match value_getitem data (py "resume_text") with
            | None => (db, None)
            | Some resume_text =>
                match validate_value resume_text with
                | None => (db, None)
                | Some (false, validation_message) =>
                    match value_len resume_text with
                    | None => (db, None)
                    | Some _ =>
                        (db, Some (error_response validation_message
                                     (py "INVALID_CONTENT") 400))
                    end
                | Some (true, _) =>
                    match resume_text with
                    | VStr text =>
                        match get_content_hash text with
                        | Raise _ => (db, None)
                        | Ok content_hash =>
                            let '(db, cached_result) :=
                              get_cached_analysis now now' content_hash db in
                            match cached_result with
                            | Some (VDict (item :: d)) =>
                                (db, Some (VDict (dict_set (item :: d) (py "from_cache")
                                                    (VBool true)), 200))
                            | Some cached =>
                                if truthy cached then (db, None)
                                else analyze_text_uncached now'' text content_hash db
                            | None => analyze_text_uncached now'' text content_hash db
                            end
                        end
                    | _ => (db, None)
                    end
                end
            end
        end
  end.

(** [analyze_text]: every exception is answered by the same response. *)
Definition analyze_text (body : result value) (now now' now'' : Z)
    (db : database) : database * response :=
  match analyze_text_try body now now' now'' db with
  | (db, Some answer) => (db, answer)
  | (db, None) =>
      (db, error_response (py "Analysis failed due to server error")
             (py "PROCESSING_ERROR") 500)
  end.
End text_route.


(** ** The feedback route ([agents/flask_app.py]) *)

(** Whether [sqlite3] binds a value as a parameter of a statement; it
    raises when it does not. *)
Class Sqlite3 := {
  sqlite_adapts : value -> bool
}.

(** The parameters of a row inserted into the table [feedback], the
    address of the client apart. *)
Record feedback_row := {
  rating : value;
  comments : value;
  analysis_id : value
}.

(** [v[:n]]: only sequences are sliced. *)
Definition slice_to (n : nat) (v : value) : option value :=
  match v with
  | VStr s => Some (VStr (take n s))
  | VList l => Some (VList (take n l))
  | _ => None
  end.

(** [not rating or not isinstance(rating, int) or rating < 1 or rating > 5];
    [bool] is a subclass of [int], and [True] counts as 1. *)
Definition rating_refused (rating : value) : bool :=
  negb (truthy rating)
  || match rating with
     | VInt n => (n <? 1) || (5 <? n)
     | VBool b => ((if b then 1 else 0) <? 1) || (5 <? (if b then 1 else 0))
     | _ => true
     end.

Definition feedback_error (error : str) (status : Z) : response :=
  (VDict [ (py "success", VBool false); (py "error", VStr error) ], status).

Section feedback_route.
Context `{Sqlite3}.

(** [submit_feedback] on the parsed body of the request: the table
    [feedback] afterwards, and the response. *)
Definition submit_feedback (body : result value) (feedback : list feedback_row)
    : list feedback_row * response :=
  match body with
  | Raise _ => (feedback, feedback_error (py "Failed to process feedback") 500)
  | Ok data =>
      if negb (truthy data) then
        (feedback, feedback_error (py "No data provided") 400)
      else
        match data with
        | VDict d =>
            let rating := dict_get d (py "rating") VNone in
            let comments := dict_get d (py "comments") (VStr []) in
            let analysis_id := dict_get d (py "analysis_id") (VStr []) in
            if rating_refused rating then
              (feedback, feedback_error (py "Rating must be between 1 and 5") 400)
            else
              match slice_to 1000 comments with
              | Some comments =>
                  if sqlite_adapts rating && sqlite_adapts comments
                     && sqlite_adapts analysis_id
                  then
                    (feedback ++ [ {| rating := rating;
                                      comments := comments;
                                      analysis_id := analysis_id |} ],
                     (VDict [ (py "success", VBool true);
                              (py "message", VStr (py "Thank you for your feedback!")) ],
                      200))
                  else (feedback, feedback_error (py "Failed to store feedback") 500)
              | None => (feedback, feedback_error (py "Failed to store feedback") 500)
              end
        | _ => (feedback, feedback_error (py "Failed to process feedback") 500)
        end
  end.
End feedback_route.

(** Stand-ins: an encoder of ASCII text with digests that tell texts apart
    by their length only, an analyzer with one answer, and a database
    that binds numbers, text and [None]. *)
Definition length_digests : Hashlib :=
  {| encode_utf8 := λ s,
       if forallb (λ c, (c <? 128)%N) s then Ok s
       else Raise (py "'utf-8' codec can't encode character");
     sha256_hexdigest := λ data,
       py "9f86d081884c7d659a2feaa0c55ad015a3bf4f1b2b0b822cd15d6c15b0f0"
       ++ write_int (Z.of_nat (length data) `mod` 10000 + 1000) |}.

Definition canned_analyzer : ResumeService :=
  {| resume_analyzer := Some (λ _, Ok sample_result) |}.

Definition missing_analyzer : ResumeService :=
  {| resume_analyzer := None |}.

Definition scalar_parameters : Sqlite3 :=
  {| sqlite_adapts := λ v,
       match v with
       | VList _ | VDict _ => false
       | _ => true
       end |}.

Definition sample_text : str :=
  py "Software engineer with five years of experience in distributed systems.".

Definition sample_request : result value :=
  Ok (VDict [ (py "resume_text", VStr sample_text) ]).

Definition sample_digest : str := @sha256_hexdigest length_digests sample_text.

Definition sample_fields : dict :=
  match sample_result with
  | VDict d => d
  | _ => []
  end.

Definition sample_answer : dict :=
  dict_set sample_fields (py "analysis_id") (VStr (take 16 sample_digest)).

Definition sample_feedback : dict :=
  [ (py "rating", VInt 4);
    (py "comments", VStr (py "Clear and helpful."));
    (py "analysis_id", VStr sample_hash) ].

(** * Properties of the analysis cache *)

Section cache_properties.
Context `{Json}.
Implicit Types (db : database) (h : str) (p : value) (r : row).

Lemma cache_analysis_lookup now h p db :
  analysis_cache (cache_analysis now h p db) !! h =
  Some {| id := sqlite_sequence db + 1;
          analysis_result := json_dumps p;
          created_at := now;
          accessed_count := coalesce_accessed_count db h + 1;
          last_accessed := now |}.
Proof. unfold cache_analysis; simpl. by rewrite lookup_insert_eq. Qed.

Lemma cache_analysis_other now h h' p db :
  h ≠ h' →
  analysis_cache (cache_analysis now h p db) !! h' = analysis_cache db !! h'.
Proof. intros Hne. unfold cache_analysis; simpl. by rewrite lookup_insert_ne. Qed.

Lemma get_cached_analysis_other now now' h h' db :
  h ≠ h' →
  analysis_cache (get_cached_analysis now now' h db).1 !! h' = analysis_cache db !! h'.
Proof.
  intros Hne. unfold get_cached_analysis.
  destruct (analysis_cache db !! h) as [r|]; [|done].
  case_bool_decide; [|done].
  destruct (json_loads _); simpl; by rewrite lookup_insert_ne.
Qed.

(** C1. A put on an absent digest creates a row with access count 1; a
    put on a digest that has a row replaces the payload, makes the access
    count one more than that of the row it replaces, and sets both
    timestamps to the time of this put. Two puts in a row on an absent
    digest therefore leave the count at 2. *)
Theorem put_accumulates_access_count h p1 p2 t1 t2 db :
  analysis_cache db !! h = None →
  let db1 := cache_analysis t1 h p1 db in
  let db2 := cache_analysis t2 h p2 db1 in
  (∃ r1, analysis_cache db1 !! h = Some r1
         ∧ analysis_result r1 = json_dumps p1
         ∧ accessed_count r1 = 1
         ∧ created_at r1 = t1 ∧ last_accessed r1 = t1)
  ∧ (∀ db' r, analysis_cache db' !! h = Some r →
       ∃ r2, analysis_cache (cache_analysis t2 h p2 db') !! h = Some r2
             ∧ analysis_result r2 = json_dumps p2
             ∧ accessed_count r2 = accessed_count r + 1
             ∧ created_at r2 = t2 ∧ last_accessed r2 = t2)
  ∧ (∃ r2, analysis_cache db2 !! h = Some r2
           ∧ analysis_result r2 = json_dumps p2
           ∧ accessed_count r2 = 2
           ∧ created_at r2 = t2 ∧ last_accessed r2 = t2).
Proof.
  intros Habsent db1 db2. split; [|split].
  - eexists. split; [apply cache_analysis_lookup|].
    simpl. unfold coalesce_accessed_count. rewrite Habsent. done.
  - intros db' r Hr. eexists. split; [apply cache_analysis_lookup|].
    simpl. unfold coalesce_accessed_count. rewrite Hr. done.
  - eexists. split; [apply cache_analysis_lookup|].
    simpl. unfold coalesce_accessed_count at 1.
    subst db1. rewrite cache_analysis_lookup. simpl.
    unfold coalesce_accessed_count. rewrite Habsent. done.
Qed.

(** The outcome of a read, case by case. *)
Lemma get_cached_analysis_miss now now' h db :
  analysis_cache db !! h = None →
  get_cached_analysis now now' h db = (db, None).
Proof. intros Hr. unfold get_cached_analysis. by rewrite Hr. Qed.

Lemma get_cached_analysis_stale now now' h db r :
  analysis_cache db !! h = Some r →
  hours 24 ≤ now - created_at r →
  get_cached_analysis now now' h db = (db, None).
Proof.
  intros Hr Hold. unfold get_cached_analysis. rewrite Hr.
  case_bool_decide; [lia|done].
Qed.

Lemma get_cached_analysis_fresh now now' h db r p :
  analysis_cache db !! h = Some r →
  now - created_at r < hours 24 →
  json_loads (analysis_result r) = Ok p →
  get_cached_analysis now now' h db =
    ({| analysis_cache := <[h := touch now' r]> (analysis_cache db);
        sqlite_sequence := sqlite_sequence db |}, Some p).
Proof.
  intros Hr Hnew Hp. unfold get_cached_analysis. rewrite Hr.
  case_bool_decide; [|lia]. by rewrite Hp.
Qed.

Lemma cleanup_old_cache_lookup now db h :
  analysis_cache (cleanup_old_cache now db).1 !! h =
  match analysis_cache db !! h with
  | Some r => if bool_decide (created_at r < now - days 7) then None else Some r
  | None => None
  end.
Proof.
  unfold cleanup_old_cache; simpl.
  destruct (analysis_cache db !! h) as [r|] eqn:Hr.
  - case_bool_decide.
    + apply map_lookup_filter_None. right. intros r' Hr'. simpl.
      rewrite Hr in Hr'. injection Hr' as <-. tauto.
    + apply map_lookup_filter_Some. done.
  - apply map_lookup_filter_None. by left.
Qed.

(** C2. A read returns a payload exactly when a row for the digest
    exists, is less than 24 hours old at the time of the read, and the
    payload is what its stored text deserialises to. On such a hit the
    row's access count grows by one and its last access becomes the time
    of the update. On a row that is 24 hours old or older the read
    returns nothing and leaves the table as it is: the row is still
    there, and a sweep deletes it only once it is more than seven days
    old. *)
Theorem get_serves_fresh_rows_only now now' h db :
  let out := get_cached_analysis now now' h db in
  (∀ p, out.2 = Some p ↔
        ∃ r, analysis_cache db !! h = Some r
             ∧ now - created_at r < hours 24
             ∧ json_loads (analysis_result r) = Ok p)
  ∧ (∀ r, analysis_cache db !! h = Some r → now - created_at r < hours 24 →
          analysis_cache out.1 !! h =
            Some {| id := id r; analysis_result := analysis_result r;
                    created_at := created_at r;
                    accessed_count := accessed_count r + 1;
                    last_accessed := now' |})
  ∧ (∀ r, analysis_cache db !! h = Some r → hours 24 ≤ now - created_at r →
          out = (db, None)
          ∧ analysis_cache out.1 !! h = Some r
          ∧ ∀ sweep_time,
              analysis_cache (cleanup_old_cache sweep_time out.1).1 !! h =
                if bool_decide (days 7 < sweep_time - created_at r)
                then None else Some r).
Proof.
  intros out. split; [|split].
  - intros p. subst out. unfold get_cached_analysis.
    destruct (analysis_cache db !! h) as [r|] eqn:Hr.
    + case_bool_decide as Hage.
      * destruct (json_loads (analysis_result r)) as [q|e] eqn:Hq; simpl.
        -- split.
           ++ intros [= <-]. exists r. split_and!; [done|lia|done].
           ++ intros (r' & [= <-] & _ & Hp). congruence.
        -- split; [done|]. intros (r' & [= <-] & _ & Hp). congruence.
      * split; [done|]. intros (r' & [= <-] & Hnew & _). lia.
    + split; [done|]. intros (r' & Hr' & _). done.
  - intros r Hr Hnew. subst out. unfold get_cached_analysis. rewrite Hr.
    case_bool_decide; [|lia].
    destruct (json_loads _); simpl; by rewrite lookup_insert_eq.
  - intros r Hr Hold. subst out.
    rewrite (get_cached_analysis_stale _ _ _ _ r) by done.
    split_and!; [done|done|]. intros sweep_time. change ((db, None : option value).1) with db.
    rewrite cleanup_old_cache_lookup, Hr.
    repeat case_bool_decide; done || lia.
Qed.

End cache_properties.

(** * Properties of the extraction pipeline *)

Section extraction_properties.
Context `{UnicodeData, PdfLibs, Nltk, Textstat}.

Lemma startswith_app (p s : str) : startswith p (p ++ s) = true.
Proof. induction p as [|c p IH]; simpl; [done|]. by rewrite N.eqb_refl. Qed.

(** When PyPDF2 raises too, the text is the error marker. *)
Lemma extract_text_both_broken data texts e texts2 e2 :
  pdfplumber_pages data = Broken texts e →
  pypdf2_pages data = Broken texts2 e2 →
  (extract_text_from_bytes data).1 = py "Error: Could not extract text from PDF".
Proof. intros Hplumber Hpypdf. unfold extract_text_from_bytes. by rewrite Hplumber, Hpypdf. Qed.

(** When pdfplumber ends without an exception, its text is the result
    and PyPDF2 is not opened. *)
Lemma extract_text_primary_only data texts :
  pdfplumber_pages data = Pages texts →
  extract_text_from_bytes data = (plumber_text texts, [OpenPdfplumber data]).
Proof. intros Hplumber. unfold extract_text_from_bytes. by rewrite Hplumber. Qed.


(** C9, as amended. PyPDF2 is opened on the same bytes exactly when
    pdfplumber raises an exception: then it is opened right after the
    warning, and the error marker is returned only once it has raised as
    well. When pdfplumber ends without an exception, PyPDF2 is not
    opened and the text found, empty or not, is the result. *)
Theorem fallback_on_exception_only (data : bytes) :
  let out := extract_text_from_bytes data in
  (OpenPyPDF2 data ∈ out.2 ↔ ∃ texts e, pdfplumber_pages data = Broken texts e)
  ∧ (∀ texts e, pdfplumber_pages data = Broken texts e →
       ∃ warning rest,
         out.2 = [OpenPdfplumber data; LogWarning warning; OpenPyPDF2 data] ++ rest
         ∧ ((rest = [] ∧ ∃ texts2, pypdf2_pages data = Pages texts2
                                    ∧ out.1 = plumber_text texts ++ pypdf2_text texts2)
            ∨ (∃ texts2 e2, pypdf2_pages data = Broken texts2 e2
                 ∧ rest = [LogError (py "PyPDF2 extraction also failed: " ++ e2)]
                 ∧ out.1 = py "Error: Could not extract text from PDF")))
  ∧ (∀ texts, pdfplumber_pages data = Pages texts →
       out = (plumber_text texts, [OpenPdfplumber data])).
Proof.
  intros out. subst out. unfold extract_text_from_bytes.
  destruct (pdfplumber_pages data) as [texts|texts e] eqn:Hplumber.
  - split_and!; [|done|by intros ? [= <-]].
    split.
    + intros Hin. apply list_elem_of_singleton in Hin. done.
    + intros (? & ? & ?). done.
  - destruct (pypdf2_pages data) as [texts2|texts2 e2] eqn:Hpypdf; simpl.
    + split_and!; [|intros ? ? [= <- <-]|done].
      * split; [by eauto|]. intros _. set_solver.
      * do 2 eexists. split; [reflexivity|]. left. eauto.
    + split_and!; [|intros ? ? [= <- <-]|done].
      * split; [by eauto|]. intros _. set_solver.
      * do 2 eexists. split; [reflexivity|]. right. eauto.
Qed.

(** C10. Whenever the raw text is not empty and does not start with the
    error marker, [process_pdf] returns [success] true, with the
    readability dictionary as [analyze_readability] returned it; when
    the cleaned text has fewer than 10 characters after stripping, that
    dictionary carries an [error] entry, no readability level, and the
    word count of the result is 0. *)
Theorem process_pdf_succeeds_without_metrics pdf_path pdf_bytes raw_text log :
  raw_text_of pdf_path pdf_bytes = (Ok raw_text, log) →
  raw_text ≠ [] →
  startswith (py "Error:") raw_text = false →
  let out := (process_pdf pdf_path pdf_bytes).1 in
  let metrics := (analyze_readability (clean_text raw_text)).1 in
  dict_lookup out (py "success") = Some (VBool true)
  ∧ dict_lookup out (py "readability_metrics") = Some (VDict metrics)
  ∧ dict_lookup out (py "word_count")
    = Some (dict_get metrics (py "word_count") (VInt 0))
  ∧ ((length (strip (clean_text raw_text)) < 10)%nat →
     dict_lookup metrics (py "error") = Some (VStr (py "Text too short for analysis"))
     ∧ dict_lookup metrics (py "readability_level") = None
     ∧ dict_lookup metrics (py "flesch_reading_ease") = None
     ∧ dict_lookup out (py "word_count") = Some (VInt 0)).
Proof.
  intros Hraw Hne Hmark out metrics. subst out metrics.
  unfold process_pdf. rewrite Hraw, Hmark.
  rewrite bool_decide_eq_false_2 by done. simpl.
  destruct (analyze_readability (clean_text raw_text)) as [metrics log1] eqn:Hm.
  destruct (extract_key_phrases (clean_text raw_text) default_top_n) as [kp log2].
  simpl. split_and!; try by vm_compute.
  intros Hshort. unfold analyze_readability in Hm.
  apply Nat.ltb_lt in Hshort. rewrite Hshort, orb_true_r in Hm.
  injection Hm as <- <-. by vm_compute.
Qed.
End extraction_properties.

(** * Properties of the readability analysis *)

Section readability_properties.
Context `{UnicodeData, PdfLibs, Nltk, Textstat}.

Lemma float_ge_int_mono s1 s2 n :
  float_le s1 s2 = true → float_ge_int s1 n = true → float_ge_int s2 n = true.
Proof.
  destruct s1 as [| |p|], s2 as [| |q|]; simpl; try done.
  rewrite !Qle_bool_iff. intros Hpq Hn. eapply Qle_trans; eassumption.
Qed.

Lemma float_ge_int_true q n : (inject_Z n <= q)%Q → float_ge_int (FFin q) n = true.
Proof. intros Hq. simpl. by apply Qle_bool_iff. Qed.

Lemma float_ge_int_false q n : (q < inject_Z n)%Q → float_ge_int (FFin q) n = false.
Proof.
  intros Hq. simpl. apply not_true_is_false. rewrite Qle_bool_iff.
  by apply Qlt_not_le.
Qed.

Lemma inject_Z_lt_lt q m n : (q < inject_Z m)%Q → (m ≤ n)%Z → (q < inject_Z n)%Q.
Proof.
  intros Hq Hmn. eapply Qlt_le_trans; [exact Hq|]. by rewrite <- Zle_Qle.
Qed.

(** The level is an antitone function of the score. *)
Lemma readability_level_antitone s1 s2 :
  float_le s1 s2 = true →
  (difficulty (readability_level s2) ≤ difficulty (readability_level s1))%nat.
Proof.
  intros Hle.
  pose proof (float_ge_int_mono s1 s2 90 Hle) as M90.
  pose proof (float_ge_int_mono s1 s2 80 Hle) as M80.
  pose proof (float_ge_int_mono s1 s2 70 Hle) as M70.
  pose proof (float_ge_int_mono s1 s2 60 Hle) as M60.
  pose proof (float_ge_int_mono s1 s2 50 Hle) as M50.
  pose proof (float_ge_int_mono s1 s2 30 Hle) as M30.
  unfold readability_level.
  repeat match goal with
    | M : float_ge_int s1 ?n = true → float_ge_int s2 ?n = true
      |- context [float_ge_int s1 ?n] =>
        destruct (float_ge_int s1 n); cbv beta iota;
        [specialize (M eq_refl)|clear M]
    end;
  repeat match goal with
    | |- context [float_ge_int s2 ?n] =>
        let E := fresh in destruct (float_ge_int s2 n) eqn:E; cbv beta iota
    end;
  solve [vm_compute; lia | congruence].
Qed.

(** The ladder on finite scores, in the order of the rationals. *)
Lemma readability_level_finite q :
  ((90 <= q)%Q → readability_level (FFin q) = py "Very Easy")
  ∧ ((80 <= q)%Q → (q < 90)%Q → readability_level (FFin q) = py "Easy")
  ∧ ((70 <= q)%Q → (q < 80)%Q → readability_level (FFin q) = py "Fairly Easy")
  ∧ ((60 <= q)%Q → (q < 70)%Q → readability_level (FFin q) = py "Standard")
  ∧ ((50 <= q)%Q → (q < 60)%Q → readability_level (FFin q) = py "Fairly Difficult")
  ∧ ((30 <= q)%Q → (q < 50)%Q → readability_level (FFin q) = py "Difficult")
  ∧ ((q < 30)%Q → readability_level (FFin q) = py "Very Difficult").
Proof.
  unfold readability_level.
  split_and!; intros;
    repeat first
      [ rewrite (float_ge_int_true q) by assumption
      | rewrite (float_ge_int_false q) by (eapply inject_Z_lt_lt; [eassumption|lia]) ];
    reflexivity.
Qed.

(** The dictionary of the [try] block when no call raises. *)
Lemma readability_scores_ok text sentences words fre fkg ari :
  sent_tokenize text = Ok sentences →
  word_tokenize text = Ok words →
  flesch_reading_ease text = Ok fre →
  flesch_kincaid_grade text = Ok fkg →
  automated_readability_index text = Ok ari →
  words = [] ∨ List.filter isalpha words ≠ [] →
  ∃ scores, readability_scores text = Ok scores
    ∧ dict_lookup scores (py "flesch_reading_ease") = Some (VFloat fre)
    ∧ dict_lookup scores (py "readability_level") = Some (VStr (readability_level fre)).
Proof.
  intros Hs Hw Hfre Hfkg Hari Halpha. unfold readability_scores.
  rewrite Hs, Hw, Hfre, Hfkg, Hari. simpl.
  assert (∃ v, match sentences with
               | [] => mret (VInt 0)
               | _ :: _ => VFloat <$> true_div (length words) (length sentences)
               end = Ok v) as [v1 ->].
  { destruct sentences; simpl; eauto. }
  simpl.
  assert (∃ v, match words with
               | [] => mret (VInt 0)
               | _ :: _ => VFloat <$> true_div (list_sum (map length (List.filter isalpha words)))
                                        (length (List.filter isalpha words))
               end = Ok v) as [v2 ->].
  { destruct Halpha as [->|Halpha]; [simpl; eauto|].
    destruct words; [simpl; eauto|].
    destruct (List.filter isalpha (s :: words)); [done|simpl; eauto]. }
  simpl. eexists. split; [reflexivity|]. split; by vm_compute.
Qed.

(** Whenever the [try] block returns a dictionary, it holds the score of
    textstat and the level of that score. *)
Lemma readability_scores_inv text scores :
  readability_scores text = Ok scores →
  ∃ fre, flesch_reading_ease text = Ok fre
    ∧ dict_lookup scores (py "flesch_reading_ease") = Some (VFloat fre)
    ∧ dict_lookup scores (py "readability_level") = Some (VStr (readability_level fre)).
Proof.
  unfold readability_scores.
  destruct (sent_tokenize text) as [sentences|]; [|done].
  destruct (word_tokenize text) as [words|]; [|done].
  destruct (flesch_reading_ease text) as [fre|]; [|done].
  destruct (flesch_kincaid_grade text) as [fkg|]; [|done].
  destruct (automated_readability_index text) as [ari|]; [|done].
  simpl.
  destruct (match sentences with
            | [] => mret (VInt 0)
            | _ :: _ => VFloat <$> true_div (length words) (length sentences)
            end) as [v1|]; [|done].
  simpl.
  destruct (match words with
            | [] => mret (VInt 0)
            | _ :: _ => VFloat <$> true_div (list_sum (map length (List.filter isalpha words)))
                                     (length (List.filter isalpha words))
            end) as [v2|]; [|done].
  simpl. intros [= <-]. exists fre. split_and!; [done|by vm_compute..].
Qed.

(** C4. For every text of at least 10 characters after stripping, a
    readability level in the result comes with the reading-ease score of
    textstat and is the level that the ladder assigns to that score
    alone; both are there when the metrics are computed (no library call
    raises, and some token is alphabetic unless there is no token). The
    ladder has inclusive lower bounds 90, 80, 70, 60, 50 and 30;
    not-a-number and minus infinity fall through to the last level and
    plus infinity takes the first. A larger score never gets a harder
    level. *)
Theorem readability_level_is_threshold_ladder text :
  (10 ≤ length (strip text))%nat →
  let metrics := (analyze_readability text).1 in
  (∀ level, dict_lookup metrics (py "readability_level") = Some level →
     ∃ fre, flesch_reading_ease text = Ok fre
       ∧ dict_lookup metrics (py "flesch_reading_ease") = Some (VFloat fre)
       ∧ level = VStr (readability_level fre))
  ∧ (∀ sentences words fre fkg ari,
       sent_tokenize text = Ok sentences →
       word_tokenize text = Ok words →
       flesch_reading_ease text = Ok fre →
       flesch_kincaid_grade text = Ok fkg →
       automated_readability_index text = Ok ari →
       words = [] ∨ List.filter isalpha words ≠ [] →
       dict_lookup metrics (py "flesch_reading_ease") = Some (VFloat fre)
       ∧ dict_lookup metrics (py "readability_level")
         = Some (VStr (readability_level fre)))
  ∧ (∀ q : Q,
       ((90 <= q)%Q → readability_level (FFin q) = py "Very Easy")
       ∧ ((80 <= q)%Q → (q < 90)%Q → readability_level (FFin q) = py "Easy")
       ∧ ((70 <= q)%Q → (q < 80)%Q → readability_level (FFin q) = py "Fairly Easy")
       ∧ ((60 <= q)%Q → (q < 70)%Q → readability_level (FFin q) = py "Standard")
       ∧ ((50 <= q)%Q → (q < 60)%Q → readability_level (FFin q) = py "Fairly Difficult")
       ∧ ((30 <= q)%Q → (q < 50)%Q → readability_level (FFin q) = py "Difficult")
       ∧ ((q < 30)%Q → readability_level (FFin q) = py "Very Difficult"))
  ∧ readability_level FPosInf = py "Very Easy"
  ∧ readability_level FNegInf = py "Very Difficult"
  ∧ readability_level FNaN = py "Very Difficult"
  ∧ (∀ s1 s2, float_le s1 s2 = true →
       (difficulty (readability_level s2) ≤ difficulty (readability_level s1))%nat).
Proof.
  intros Hlen metrics.
  assert (metrics = match readability_scores text with
                    | Ok scores => scores
                    | Raise e =>
                        [ (py "error", VStr e);
                          (py "word_count", VInt (Z.of_nat (count_fields false text)));
                          (py "sentence_count", VInt (Z.of_nat (count_split 46%N text))) ]
                    end) as Hmetrics.
  { subst metrics. unfold analyze_readability.
    destruct text as [|c text]; [simpl in Hlen; lia|].
    rewrite bool_decide_eq_false_2 by done.
    destruct (Nat.ltb_spec (length (strip (c :: text))) 10); [lia|].
    simpl. by destruct (readability_scores (c :: text)). }
  split_and!; try done.
  - intros level Hlevel. rewrite Hmetrics in Hlevel |- *.
    destruct (readability_scores text) as [scores|e] eqn:Hscores.
    + destruct (readability_scores_inv _ _ Hscores) as (fre & Hfre & Hscore & Hl).
      exists fre. split_and!; [done..|congruence].
    + by vm_compute in Hlevel.
  - intros sentences words fre fkg ari Hs Hw Hfre Hfkg Hari Halpha.
    destruct (readability_scores_ok _ _ _ _ _ _ Hs Hw Hfre Hfkg Hari Halpha)
      as (scores & Hscores & Hscore & Hlevel).
    by rewrite Hmetrics, Hscores.
  - apply readability_level_finite.
  - apply readability_level_antitone.
Qed.
End readability_properties.

(** * Properties of the key-phrase extraction *)

Section counter_properties.
Implicit Types (w k : str) (ws : list str) (c : list (str * nat)).

Lemma str_eqb_true a b : str_eqb a b = true ↔ a = b.
Proof. unfold str_eqb. apply bool_decide_eq_true. Qed.

Lemma frequency_snoc k ws w :
  frequency k (ws ++ [w]) = (frequency k ws + if decide (w = k) then 1 else 0)%nat.
Proof.
  unfold frequency. rewrite filter_app, length_app. f_equal.
  rewrite filter_cons, filter_nil. by case_decide.
Qed.

Lemma frequency_absent k ws : k ∉ ws → frequency k ws = 0%nat.
Proof.
  unfold frequency. induction ws as [|x ws IH]; [done|].
  intros Hk. rewrite not_elem_of_cons in Hk. destruct Hk as [Hne Hk].
  rewrite filter_cons. case_decide; [congruence|]. by apply IH.
Qed.

Lemma frequency_present k ws : k ∈ ws → (0 < frequency k ws)%nat.
Proof.
  unfold frequency. induction ws as [|x ws IH]; [by intros ?%elem_of_nil|].
  intros Hk. rewrite filter_cons. case_decide; [simpl; lia|].
  apply IH. apply elem_of_cons in Hk as [->|]; done.
Qed.

Lemma first_index_lt k ws : k ∈ ws → (first_index k ws < length ws)%nat.
Proof.
  induction ws as [|x ws IH]; [by intros ?%elem_of_nil|].
  intros Hk. simpl. destruct (str_eqb x k) eqn:E; [lia|].
  apply elem_of_cons in Hk as [->|Hk].
  - apply not_true_iff_false in E. by rewrite str_eqb_true in E.
  - specialize (IH Hk). lia.
Qed.

Lemma first_index_snoc_old k ws w :
  k ∈ ws → first_index k (ws ++ [w]) = first_index k ws.
Proof.
  induction ws as [|x ws IH]; [by intros ?%elem_of_nil|].
  intros Hk. simpl. destruct (str_eqb x k) eqn:E; [done|].
  f_equal. apply IH. apply elem_of_cons in Hk as [->|Hk]; [|done].
  apply not_true_iff_false in E. by rewrite str_eqb_true in E.
Qed.

Lemma first_index_snoc_new ws w :
  w ∉ ws → first_index w (ws ++ [w]) = length ws.
Proof.
  induction ws as [|x ws IH]; simpl.
  - intros _. by rewrite (proj2 (str_eqb_true w w)).
  - intros Hw. rewrite not_elem_of_cons in Hw. destruct Hw as [Hne Hw].
    destruct (str_eqb x w) eqn:E; [apply str_eqb_true in E; congruence|].
    f_equal. by apply IH.
Qed.

Lemma elem_of_first_occurrences k ws : k ∈ first_occurrences ws ↔ k ∈ ws.
Proof.
  unfold first_occurrences.
  by rewrite elem_of_reverse, elem_of_remove_dups, elem_of_reverse.
Qed.

Lemma NoDup_first_occurrences ws : NoDup (first_occurrences ws).
Proof.
  unfold first_occurrences. rewrite reverse_Permutation.
  apply NoDup_remove_dups.
Qed.

Lemma first_occurrences_snoc ws w :
  first_occurrences (ws ++ [w]) =
  if decide (w ∈ ws) then first_occurrences ws else first_occurrences ws ++ [w].
Proof.
  unfold first_occurrences. rewrite reverse_snoc. simpl.
  destruct (decide_rel elem_of w (reverse ws)) as [Hin|Hin];
    rewrite elem_of_reverse in Hin; case_decide; try done.
  by rewrite reverse_cons.
Qed.

(** One more occurrence of [w], on a counter given by its keys and a
    count for each. *)
Lemma counter_add_fmap (f g : str → nat) (ks : list str) w :
  NoDup ks →
  (∀ k, k ∈ ks → g k = if decide (w = k) then S (f k) else f k) →
  g w = (if decide (w ∈ ks) then g w else 1%nat) →
  counter_add w ((λ k, (k, f k)) <$> ks) =
  (λ k, (k, g k)) <$> (if decide (w ∈ ks) then ks else ks ++ [w]).
Proof.
  induction ks as [|k ks IH]; intros Hnd Hg Hw.
  - case_decide; [set_solver|]. simpl. by rewrite Hw.
  - apply NoDup_cons in Hnd as [Hk Hnd].
    rewrite fmap_cons. cbn [counter_add].
    destruct (str_eqb k w) eqn:E.
    + apply str_eqb_true in E. subst k.
      rewrite decide_True by set_solver. rewrite fmap_cons.
      rewrite (Hg w) by set_solver. rewrite decide_True by done.
      f_equal. apply list_fmap_ext. intros i k Hi. f_equal.
      assert (k ∈ ks) as Hin by (by eapply list_elem_of_lookup_2).
      rewrite (Hg k) by set_solver.
      rewrite decide_False; [done|]. intros ->. done.
    + assert (k ≠ w) as Hne.
      { intros ->. apply not_true_iff_false in E. by rewrite str_eqb_true in E. }
      rewrite IH; [|done|intros; apply Hg; set_solver|].
      * assert (g k = f k) as Hgk.
        { rewrite (Hg k) by set_solver. by rewrite decide_False. }
        destruct (decide (w ∈ ks)) as [Hin|Hin].
        -- rewrite decide_True by (apply elem_of_cons; by right).
           by rewrite fmap_cons, Hgk.
        -- rewrite decide_False by (apply not_elem_of_cons; split; congruence).
           by rewrite <- app_comm_cons, fmap_cons, Hgk.
      * destruct (decide (w ∈ ks)) as [Hin|Hin]; [done|].
        rewrite decide_False in Hw by (apply not_elem_of_cons; split; congruence).
        done.
Qed.

(** The counter holds the distinct tokens in the order of their first
    occurrences, each with its frequency. *)
Lemma Counter_spec ws :
  Counter ws = (λ k, (k, frequency k ws)) <$> first_occurrences ws.
Proof.
  induction ws as [|w ws IH] using rev_ind; [done|].
  unfold Counter. rewrite foldl_snoc. fold (Counter ws). rewrite IH.
  rewrite first_occurrences_snoc.
  rewrite (counter_add_fmap _ (λ k, frequency k (ws ++ [w]))).
  - destruct (decide (w ∈ first_occurrences ws)) as [Hin|Hin];
      rewrite elem_of_first_occurrences in Hin;
      [by rewrite decide_True|by rewrite decide_False].
  - apply NoDup_first_occurrences.
  - intros k _. rewrite frequency_snoc. case_decide; lia.
  - destruct (decide (w ∈ first_occurrences ws)) as [Hin|Hin]; [done|].
    rewrite elem_of_first_occurrences in Hin.
    rewrite frequency_snoc, frequency_absent by done.
    by rewrite decide_True.
Qed.
End counter_properties.

Section ranking_properties.
Implicit Types (w k : str) (ws : list str) (c l : list (str * nat)).

Lemma StronglySorted_on_elements {A} (R R' : relation A) (l : list A) :
  (∀ a b, a ∈ l → b ∈ l → R a b → R' a b) →
  StronglySorted R l → StronglySorted R' l.
Proof.
  induction l as [|x l IH]; intros HR Hs; [constructor|].
  apply StronglySorted_cons in Hs as [Hx Hs]. apply StronglySorted_cons. split.
  - rewrite Forall_forall in Hx |- *. intros y Hy.
    apply HR; [set_solver|set_solver|by apply Hx].
  - apply IH; [|done]. intros a b Ha Hb. apply HR; set_solver.
Qed.

Lemma StronglySorted_lookup {A} (R : relation A) (l : list A) i j a b :
  StronglySorted R l → (i < j)%nat → l !! i = Some a → l !! j = Some b → R a b.
Proof.
  intros Hs. revert i j. induction Hs as [|x l Hs IH Hx]; intros i j Hij Hi Hj.
  - by rewrite lookup_nil in Hi.
  - destruct j as [|j]; [lia|]. simpl in Hj. destruct i as [|i].
    + injection Hi as <-. rewrite Forall_forall in Hx. apply Hx.
      by eapply list_elem_of_lookup_2.
    + simpl in Hi. apply (IH i j); [lia|done|done].
Qed.

Lemma StronglySorted_take {A} (R : relation A) (l : list A) n :
  StronglySorted R l → StronglySorted R (take n l).
Proof.
  intros Hs. rewrite <- (take_drop n l) in Hs.
  by apply StronglySorted_app_1_l in Hs.
Qed.

(** The distinct tokens come in the order of their first indices. *)
Lemma first_occurrences_sorted ws :
  StronglySorted (λ a b, (first_index a ws < first_index b ws)%nat)
    (first_occurrences ws).
Proof.
  induction ws as [|w ws IH] using rev_ind; [constructor|].
  rewrite first_occurrences_snoc.
  assert (StronglySorted
            (λ a b, (first_index a (ws ++ [w]) < first_index b (ws ++ [w]))%nat)
            (first_occurrences ws)) as Hold.
  { apply (StronglySorted_on_elements
             (λ a b, (first_index a ws < first_index b ws)%nat)); [|exact IH].
    intros a b Ha Hb. rewrite elem_of_first_occurrences in Ha, Hb.
    simpl. by rewrite !first_index_snoc_old by done. }
  case_decide as Hin; [done|].
  apply StronglySorted_app_2; [|done|repeat constructor].
  intros a b Ha Hb%list_elem_of_singleton. subst b.
  rewrite elem_of_first_occurrences in Ha.
  rewrite first_index_snoc_old, first_index_snoc_new by done.
  by apply first_index_lt.
Qed.

Lemma Counter_sorted ws :
  StronglySorted (λ a b, (first_index a.1 ws < first_index b.1 ws)%nat) (Counter ws).
Proof.
  rewrite Counter_spec.
  eapply (StronglySorted_fmap _ _ _ (first_occurrences ws));
    [|apply first_occurrences_sorted].
  done.
Qed.

Lemma elem_of_Counter ws k n :
  (k, n) ∈ Counter ws ↔ k ∈ ws ∧ n = frequency k ws.
Proof.
  rewrite Counter_spec, list_elem_of_fmap. split.
  - intros (k' & [= -> ->] & Hk). by rewrite elem_of_first_occurrences in Hk.
  - intros [Hk ->]. exists k. by rewrite elem_of_first_occurrences.
Qed.

Lemma insert_desc_Permutation x l : insert_desc x l ≡ₚ x :: l.
Proof.
  induction l as [|y l IH]; simpl; [done|].
  destruct (x.2 <? y.2)%nat; [|done].
  rewrite IH. apply Permutation_swap.
Qed.

Lemma sorted_desc_Permutation c : sorted_desc c ≡ₚ c.
Proof.
  induction c as [|x c IH]; simpl; [done|].
  by rewrite insert_desc_Permutation, IH.
Qed.

Lemma entry_before_count ws (a b : str * nat) : entry_before ws a b → (b.2 ≤ a.2)%nat.
Proof. intros [?|[? _]]; lia. Qed.

Lemma insert_desc_sorted ws x l :
  StronglySorted (entry_before ws) l →
  Forall (λ y, (first_index x.1 ws < first_index y.1 ws)%nat) l →
  StronglySorted (entry_before ws) (insert_desc x l).
Proof.
  induction l as [|y l IH]; intros Hs Hx; simpl.
  - repeat constructor.
  - apply StronglySorted_cons in Hs as [Hy Hs].
    apply Forall_cons in Hx as [Hxy Hx].
    destruct (Nat.ltb_spec x.2 y.2) as [Hlt|Hge].
    + apply StronglySorted_cons. split; [|by apply IH].
      rewrite insert_desc_Permutation. apply Forall_cons. split; [|done].
      by left.
    + apply StronglySorted_cons. split; [|by apply StronglySorted_cons].
      apply Forall_cons. split.
      * destruct (decide (y.2 = x.2)) as [Heq|Hne]; [right; done|left; lia].
      * rewrite Forall_forall in Hy, Hx |- *. intros z Hz.
        pose proof (entry_before_count _ _ _ (Hy z Hz)) as Hzy.
        destruct (decide (z.2 = x.2)) as [Heq|Hne];
          [right; split; [done|by apply Hx]|left; lia].
Qed.

(** The descending sort breaks ties by position: on items that come in
    the order of their first indices, it yields the ranking. *)
Lemma sorted_desc_sorted ws c :
  StronglySorted (λ a b, (first_index a.1 ws < first_index b.1 ws)%nat) c →
  StronglySorted (entry_before ws) (sorted_desc c).
Proof.
  induction c as [|x c IH]; intros Hs; simpl; [constructor|].
  apply StronglySorted_cons in Hs as [Hx Hs].
  apply insert_desc_sorted; [by apply IH|].
  by rewrite sorted_desc_Permutation.
Qed.

Lemma most_common_sorted ws n :
  StronglySorted (entry_before ws) (most_common (Counter ws) n).
Proof.
  unfold most_common. apply StronglySorted_take, sorted_desc_sorted, Counter_sorted.
Qed.

Lemma elem_of_most_common ws n x :
  x ∈ most_common (Counter ws) n → x.1 ∈ ws ∧ x.2 = frequency x.1 ws.
Proof.
  unfold most_common. intros Hx%subseteq_take.
  rewrite sorted_desc_Permutation in Hx. destruct x as [k m].
  by apply elem_of_Counter in Hx.
Qed.

Lemma NoDup_most_common ws n : NoDup (fst <$> most_common (Counter ws) n).
Proof.
  unfold most_common. rewrite fmap_take.
  eapply sublist_NoDup; [|apply sublist_take].
  rewrite sorted_desc_Permutation, Counter_spec, <- list_fmap_compose.
  rewrite (list_fmap_ext (fst ∘ (λ k, (k, frequency k ws))) Datatypes.id
             (first_occurrences ws)) by done.
  rewrite list_fmap_id. apply NoDup_first_occurrences.
Qed.

Lemma entry_before_ranked ws (x y : str * nat) :
  x.2 = frequency x.1 ws → y.2 = frequency y.1 ws →
  entry_before ws x y → ranked_before ws x.1 y.1.
Proof. unfold entry_before, ranked_before. intros -> ->. done. Qed.

(** The tokens of [most_common], as a ranking. *)
Lemma most_common_ranked ws n i j a b :
  (i < j)%nat →
  (fst <$> most_common (Counter ws) n) !! i = Some a →
  (fst <$> most_common (Counter ws) n) !! j = Some b →
  ranked_before ws a b.
Proof.
  intros Hij (x & -> & Hx)%list_lookup_fmap_Some (y & -> & Hy)%list_lookup_fmap_Some.
  apply entry_before_ranked.
  - eapply elem_of_most_common, list_elem_of_lookup_2, Hx.
  - eapply elem_of_most_common, list_elem_of_lookup_2, Hy.
  - eapply StronglySorted_lookup; [apply most_common_sorted|..]; done.
Qed.

(** A token that is left out is ranked after all [n] tokens returned. *)
Lemma most_common_complete ws n w :
  w ∈ ws → w ∉ fst <$> most_common (Counter ws) n →
  length (most_common (Counter ws) n) = Z.to_nat n
  ∧ ∀ a, a ∈ fst <$> most_common (Counter ws) n → ranked_before ws a w.
Proof.
  intros Hw Hout.
  assert ((w, frequency w ws) ∈ sorted_desc (Counter ws)) as Hin.
  { rewrite sorted_desc_Permutation. by apply elem_of_Counter. }
  apply list_elem_of_lookup in Hin as [j Hj].
  destruct (decide (j < Z.to_nat n)%nat) as [Hlt|Hge].
  { exfalso. apply Hout. apply list_elem_of_fmap. exists (w, frequency w ws).
    split; [done|]. unfold most_common. apply elem_of_take. eauto. }
  pose proof (lookup_lt_Some _ _ _ Hj) as Hlen.
  split; [unfold most_common; rewrite length_take; lia|].
  intros a (x & -> & Hx)%list_elem_of_fmap.
  unfold most_common in Hx. apply elem_of_take in Hx as (i & Hi & Hin).
  apply (entry_before_ranked ws x (w, frequency w ws)); [|done|].
  - apply (elem_of_most_common ws (Z.of_nat (length (Counter ws)))).
    unfold most_common. rewrite take_ge.
    + by eapply list_elem_of_lookup_2.
    + rewrite sorted_desc_Permutation. lia.
  - eapply (StronglySorted_lookup _ _ i j);
      [apply sorted_desc_sorted, Counter_sorted|lia|done..].
Qed.
End ranking_properties.

Section key_phrase_properties.
Context `{UnicodeData, Nltk}.

Lemma key_word_spec w :
  key_word w = true ↔ isalpha w = true ∧ (2 < length w)%nat ∧ w ∉ stop_words.
Proof.
  unfold key_word. rewrite !andb_true_iff, Nat.ltb_lt, bool_decide_eq_true.
  tauto.
Qed.

Lemma elem_of_key_words w words :
  w ∈ List.filter key_word words ↔ w ∈ words ∧ key_word w = true.
Proof. by rewrite !list_elem_of_In, filter_In. Qed.

Lemma extract_key_phrases_tokens text words top_n :
  text ≠ [] →
  word_tokenize (lower text) = Ok words →
  extract_key_phrases text top_n =
    (fst <$> most_common (Counter (List.filter key_word words)) top_n, []).
Proof.
  intros Hne Hwords. unfold extract_key_phrases.
  destruct text; [done|]. by rewrite Hwords.
Qed.

(** The phrases are always the result of [most_common] on some token
    stream of key words: the empty one when there is no text or the
    tokenizer raises. *)
Lemma extract_key_phrases_stream text top_n :
  ∃ words,
    (extract_key_phrases text top_n).1 =
      fst <$> most_common (Counter (List.filter key_word words)) top_n.
Proof.
  unfold extract_key_phrases. destruct text as [|c text].
  - exists []. unfold most_common. simpl. by rewrite take_nil.
  - destruct (word_tokenize (lower (c :: text))) as [words|e].
    + by exists words.
    + exists []. unfold most_common. simpl. by rewrite take_nil.
Qed.

(** C8. The phrases are at most [top_n] (none when [top_n] is not
    positive) and distinct; each is alphabetic, longer than two
    characters and not a stop word; they are key words of the token
    stream, ranked by descending frequency and, among equally frequent
    ones, by first occurrence, and a key word that is left out is ranked
    after all [top_n] phrases returned. The empty text has no phrases,
    and neither has a text on which the tokenizer raises. When the
    tokenizer splits the example text at its spaces and none of its
    three words is a stop word, the two phrases are python and sql. *)
Theorem key_phrases_are_top_ranked text top_n :
  let phrases := (extract_key_phrases text top_n).1 in
  (length phrases ≤ Z.to_nat top_n)%nat
  ∧ NoDup phrases
  ∧ (∀ w, w ∈ phrases →
       (w ∉ stop_words) ∧ (2 < length w)%nat ∧ isalpha w = true)
  ∧ (∀ words, text ≠ [] → word_tokenize (lower text) = Ok words →
       let stream := List.filter key_word words in
       (∀ w, w ∈ phrases → w ∈ stream)
       ∧ (∀ i j a b, (i < j)%nat →
            phrases !! i = Some a → phrases !! j = Some b →
            ranked_before stream a b)
       ∧ (∀ w, w ∈ stream → w ∉ phrases →
            length phrases = Z.to_nat top_n
            ∧ ∀ a, a ∈ phrases → ranked_before stream a w))
  ∧ (text = [] → phrases = [])
  ∧ (∀ e, word_tokenize (lower text) = Raise e → phrases = [])
  ∧ (word_tokenize (py "python python sql python sql java")
     = Ok [py "python"; py "python"; py "sql"; py "python"; py "sql"; py "java"] →
     py "python" ∉ stop_words → py "sql" ∉ stop_words → py "java" ∉ stop_words →
     (extract_key_phrases (py "python python sql python sql java") 2).1
     = [py "python"; py "sql"]).
Proof.
  intros phrases. split_and!.
  - subst phrases. destruct (extract_key_phrases_stream text top_n) as [ws ->].
    rewrite length_fmap. unfold most_common. rewrite length_take. lia.
  - subst phrases. destruct (extract_key_phrases_stream text top_n) as [ws ->].
    apply NoDup_most_common.
  - subst phrases. destruct (extract_key_phrases_stream text top_n) as [ws ->].
    intros w (x & -> & Hx%elem_of_most_common)%list_elem_of_fmap.
    destruct Hx as [Hx _]. apply elem_of_key_words in Hx as [_ Hx].
    apply key_word_spec in Hx. tauto.
  - intros words Hne Hwords stream. subst phrases.
    rewrite (extract_key_phrases_tokens _ _ _ Hne Hwords). simpl. split_and!.
    + intros w (x & -> & Hx%elem_of_most_common)%list_elem_of_fmap. tauto.
    + intros i j a b. apply most_common_ranked.
    + intros w Hw Hout.
      destruct (most_common_complete _ _ _ Hw Hout) as [Hlen Hrank].
      by rewrite length_fmap.
  - intros ->. done.
  - intros e He. subst phrases. unfold extract_key_phrases.
    destruct text; [done|]. by rewrite He.
  - intros Hwords Hpython Hsql Hjava.
    assert (key_word (py "python") = true) as Kpython.
    { apply key_word_spec. split_and!; [by vm_compute|simpl; lia|done]. }
    assert (key_word (py "sql") = true) as Ksql.
    { apply key_word_spec. split_and!; [by vm_compute|simpl; lia|done]. }
    assert (key_word (py "java") = true) as Kjava.
    { apply key_word_spec. split_and!; [by vm_compute|simpl; lia|done]. }
    rewrite (extract_key_phrases_tokens _
               [py "python"; py "python"; py "sql"; py "python"; py "sql"; py "java"]).
    + cbn [List.filter]. rewrite Kpython, Ksql, Kjava. by vm_compute.
    + discriminate.
    + assert (lower (py "python python sql python sql java")
              = py "python python sql python sql java") as -> by (by vm_compute).
      exact Hwords.
Qed.
End key_phrase_properties.

(** * Properties of the text cleaning *)

Local Open Scope N_scope.

Section strip_properties.
Implicit Types (c d : char) (s t : str).

(** Decides the comparisons of a goal on code points. *)
Ltac char_cases :=
  repeat match goal with
    | H : _ && _ = true |- _ => apply andb_true_iff in H as [? ?]
    | H : (_ <=? _) = true |- _ => apply N.leb_le in H
    | H : (_ =? _) = true |- _ => apply N.eqb_eq in H
    end;
  repeat match goal with
    | |- context [?a <=? ?b] => destruct (N.leb_spec a b); try lia
    | |- context [?a =? ?b] => destruct (N.eqb_spec a b); try lia
    end;
  try reflexivity.

Lemma lower_not_space c : is_ascii_lower c = true → isspace c = false.
Proof. unfold is_ascii_lower, isspace. intros Hc. char_cases. Qed.

Lemma upper_not_space c : is_ascii_upper c = true → isspace c = false.
Proof. unfold is_ascii_upper, isspace. intros Hc. char_cases. Qed.

Lemma lower_not_hyphen c : is_ascii_lower c = true → (c =? 45) = false.
Proof. unfold is_ascii_lower. intros Hc. char_cases. Qed.

Lemma newline_is_space c : (10 =? c) = true → isspace c = true.
Proof. intros Hc%N.eqb_eq. subst c. reflexivity. Qed.

Lemma lstrip_starts s : starts_with_space (lstrip s) = false.
Proof.
  induction s as [|c s IH]; [done|]. simpl.
  destruct (isspace c) eqn:E; [done|]. simpl. done.
Qed.

Lemma lstrip_id s : starts_with_space s = false → lstrip s = s.
Proof. destruct s as [|c s]; [done|]. simpl. by intros ->. Qed.

Lemma rstrip_cons c s :
  rstrip (c :: s) =
  if isspace c && bool_decide (rstrip s = []) then [] else c :: rstrip s.
Proof.
  simpl. destruct (rstrip s) as [|d t] eqn:E.
  - rewrite bool_decide_eq_true_2 by done. by destruct (isspace c).
  - rewrite bool_decide_eq_false_2 by done. by rewrite andb_false_r.
Qed.

Lemma rstrip_starts s :
  starts_with_space s = false → starts_with_space (rstrip s) = false.
Proof.
  destruct s as [|c s]; [done|]. rewrite rstrip_cons. intros Hc.
  simpl in Hc. rewrite Hc. cbn [andb starts_with_space]. exact Hc.
Qed.

(** The first code point of what [rstrip] leaves is that of its
    argument. *)
Lemma rstrip_head s d t : rstrip s = d :: t → ∃ s', s = d :: s'.
Proof.
  destruct s as [|c s]; [done|]. rewrite rstrip_cons.
  destruct (isspace c && _); [done|]. intros [= -> _]. eauto.
Qed.

Lemma rstrip_rstrip s : rstrip (rstrip s) = rstrip s.
Proof.
  induction s as [|c s IH]; [done|]. rewrite rstrip_cons.
  destruct (isspace c && bool_decide (rstrip s = [])) eqn:E; [done|].
  by rewrite rstrip_cons, IH, E.
Qed.

Lemma strip_starts s : starts_with_space (strip s) = false.
Proof. unfold strip. apply rstrip_starts, lstrip_starts. Qed.

Lemma strip_strip s : strip (strip s) = strip s.
Proof.
  unfold strip. rewrite (lstrip_id (rstrip (lstrip s))).
  - apply rstrip_rstrip.
  - apply rstrip_starts, lstrip_starts.
Qed.

Lemma forallb_lstrip (Q : char → bool) s :
  forallb Q s = true → forallb Q (lstrip s) = true.
Proof.
  induction s as [|c s IH]; [done|]. simpl.
  intros [Hc Hs]%andb_true_iff. destruct (isspace c); [by apply IH|].
  simpl. by rewrite Hc, Hs.
Qed.

Lemma forallb_rstrip (Q : char → bool) s :
  forallb Q s = true → forallb Q (rstrip s) = true.
Proof.
  induction s as [|c s IH]; [done|]. rewrite rstrip_cons.
  intros [Hc Hs]%andb_true_iff. destruct (isspace c && _); [done|].
  simpl. by rewrite Hc, IH.
Qed.

Lemma forallb_strip (Q : char → bool) s :
  forallb Q s = true → forallb Q (strip s) = true.
Proof. intros Hs. by apply forallb_rstrip, forallb_lstrip. Qed.

Lemma well_spaced_tail c s : well_spaced (c :: s) = true → well_spaced s = true.
Proof. simpl. by intros [_ ?]%andb_true_iff. Qed.

Lemma has_pair_tail P c s : has_pair P (c :: s) = false → has_pair P s = false.
Proof. simpl. by intros [_ ?]%orb_false_iff. Qed.

Lemma well_spaced_lstrip s : well_spaced s = true → well_spaced (lstrip s) = true.
Proof.
  induction s as [|c s IH]; [done|]. intros Hs. simpl.
  destruct (isspace c); [|done]. by eapply IH, well_spaced_tail.
Qed.

Lemma has_pair_lstrip P s : has_pair P s = false → has_pair P (lstrip s) = false.
Proof.
  induction s as [|c s IH]; [done|]. intros Hs. simpl.
  destruct (isspace c); [|done]. by eapply IH, has_pair_tail.
Qed.

Lemma well_spaced_rstrip s : well_spaced s = true → well_spaced (rstrip s) = true.
Proof.
  induction s as [|c s IH]; [done|]. rewrite rstrip_cons.
  destruct (isspace c && _); [done|].
  simpl. intros [Hc Hs]%andb_true_iff. rewrite (IH Hs), andb_true_r.
  destruct (isspace c); [|done]. simpl in *.
  apply andb_true_iff in Hc as [-> Hc]. simpl.
  apply negb_true_iff in Hc. by rewrite rstrip_starts.
Qed.

Lemma has_pair_rstrip P s : has_pair P s = false → has_pair P (rstrip s) = false.
Proof.
  induction s as [|c s IH]; [done|]. rewrite rstrip_cons.
  destruct (isspace c && _); [done|].
  simpl. intros [Hc Hs]%orb_false_iff. rewrite (IH Hs), orb_false_r.
  destruct (rstrip s) as [|d t] eqn:E; [done|].
  apply rstrip_head in E as [s' ->]. done.
Qed.
End strip_properties.

Section substitution_properties.
Implicit Types (c d : char) (s t : str).

Lemma sub_runs_no_match P r b s :
  forallb (λ c, negb (P c)) s = true → sub_runs P r b s = s.
Proof.
  revert b. induction s as [|c s IH]; intros b; [done|]. simpl.
  intros [Hc Hs]%andb_true_iff. apply negb_true_iff in Hc.
  by rewrite Hc, IH.
Qed.

(** After the first substitution all white space is single spaces. *)
Lemma sub_runs_well_spaced b s :
  well_spaced (sub_runs isspace 32 b s) = true
  ∧ (b = true → starts_with_space (sub_runs isspace 32 b s) = false).
Proof.
  revert b. induction s as [|c s IH]; intros b; [done|]. simpl.
  destruct (isspace c) eqn:Hc.
  - destruct b.
    + apply IH.
    + destruct (IH true) as [Hw Hs]. split; [|done]. simpl.
      by rewrite Hw, Hs.
  - destruct (IH false) as [Hw _]. simpl. by rewrite Hc, Hw.
Qed.

Lemma well_spaced_no_newline s :
  well_spaced s = true → forallb (λ c, negb (10 =? c)) s = true.
Proof.
  induction s as [|c s IH]; [done|]. cbn [forallb well_spaced].
  intros [Hc Hs]%andb_true_iff. rewrite (IH Hs), andb_true_r.
  destruct (N.eqb_spec 10 c) as [<-|]; [|done]. by vm_compute in Hc.
Qed.

(** The second substitution never finds a newline to replace. *)
Lemma newline_substitution_is_dead s :
  sub_runs (N.eqb 10) 10 false (sub_runs isspace 32 false s)
  = sub_runs isspace 32 false s.
Proof.
  apply sub_runs_no_match, well_spaced_no_newline, sub_runs_well_spaced.
Qed.

Lemma sub_runs_flag b s :
  starts_with_space s = false →
  sub_runs isspace 32 b s = sub_runs isspace 32 false s.
Proof. destruct s as [|c s]; [done|]. simpl. by intros ->. Qed.

Lemma well_spaced_sub_runs s :
  well_spaced s = true → sub_runs isspace 32 false s = s.
Proof.
  induction s as [|c s IH]; [done|]. simpl.
  intros [Hc Hs]%andb_true_iff. destruct (isspace c) eqn:E.
  - simpl in Hc. apply andb_true_iff in Hc as [Hc Hd].
    apply N.eqb_eq in Hc. subst c. apply negb_true_iff in Hd.
    by rewrite (sub_runs_flag true s Hd), IH.
  - by rewrite IH.
Qed.

Lemma forallb_sub_runs (Q : char → bool) P r b s :
  Q r = true → forallb Q s = true → forallb Q (sub_runs P r b s) = true.
Proof.
  intros Hr. revert b. induction s as [|c s IH]; intros b; [done|]. simpl.
  intros [Hc Hs]%andb_true_iff.
  destruct (P c), b; simpl; rewrite ?Hr, ?Hc, ?IH; done.
Qed.

Lemma filter_forallb (Q : char → bool) s : forallb Q (List.filter Q s) = true.
Proof.
  induction s as [|c s IH]; [done|]. simpl.
  destruct (Q c) eqn:E; [|done]. simpl. by rewrite E, IH.
Qed.

Lemma filter_id (Q : char → bool) s : forallb Q s = true → List.filter Q s = s.
Proof.
  induction s as [|c s IH]; [done|]. simpl.
  intros [Hc Hs]%andb_true_iff. by rewrite Hc, IH.
Qed.

(** Induction that follows the recursion of [remove_hyphen_space]. *)
Lemma str_ind2 (Q : str → Prop) :
  Q [] → (∀ c, Q [c]) →
  (∀ c d s, Q s → Q (d :: s) → Q (c :: d :: s)) →
  ∀ s, Q s.
Proof.
  intros Hnil Hone Hstep s.
  assert (Q s ∧ ∀ c, Q (c :: s)) as [? _]; [|done].
  induction s as [|d s [IH1 IH2]]; [by split|].
  split; [apply IH2|]. intros c. by apply Hstep.
Qed.

Lemma remove_hyphen_space_id s :
  has_pair hyphen_space s = false → remove_hyphen_space s = s.
Proof.
  induction s as [|c|c d s IH1 IH2] using str_ind2; [done..|].
  intros Hs. change (has_pair hyphen_space (c :: d :: s))
    with (hyphen_space c d || has_pair hyphen_space (d :: s)) in Hs.
  apply orb_false_iff in Hs as [Hcd Hs].
  change (remove_hyphen_space (c :: d :: s))
    with (if hyphen_space c d then remove_hyphen_space s
          else c :: remove_hyphen_space (d :: s)).
  by rewrite Hcd, IH2.
Qed.

Lemma forallb_remove_hyphen_space (Q : char → bool) s :
  forallb Q s = true → forallb Q (remove_hyphen_space s) = true.
Proof.
  induction s as [|c|c d s IH1 IH2] using str_ind2; [done..|].
  intros Hs.
  change (remove_hyphen_space (c :: d :: s))
    with (if hyphen_space c d then remove_hyphen_space s
          else c :: remove_hyphen_space (d :: s)).
  simpl in Hs. apply andb_true_iff in Hs as [Hc Hs].
  destruct (hyphen_space c d).
  - apply IH1. by apply andb_true_iff in Hs as [_ ?].
  - change (forallb Q (c :: ?t)) with (Q c && forallb Q t).
    by rewrite Hc, IH2.
Qed.

Lemma remove_hyphen_space_starts s :
  well_spaced s = true → starts_with_space s = false →
  starts_with_space (remove_hyphen_space s) = false.
Proof.
  induction s as [|c|c d s IH1 IH2] using str_ind2; [done..|].
  intros Hw Hc.
  change (remove_hyphen_space (c :: d :: s))
    with (if hyphen_space c d then remove_hyphen_space s
          else c :: remove_hyphen_space (d :: s)).
  destruct (hyphen_space c d) eqn:Hcd; [|done].
  apply andb_true_iff in Hcd as [_ Hd]. apply N.eqb_eq in Hd. subst d.
  apply well_spaced_tail in Hw. pose proof (well_spaced_tail _ _ Hw) as Hs.
  apply IH1; [done|]. simpl in Hw.
  apply andb_true_iff in Hw as [Hd _]. simpl in Hd.
  by apply negb_true_iff in Hd.
Qed.

Lemma space_when_well_spaced c s :
  well_spaced (c :: s) = true → isspace c = true →
  c = 32 ∧ starts_with_space s = false.
Proof.
  simpl. intros [Hc _]%andb_true_iff Hsp. rewrite Hsp in Hc. simpl in Hc.
  apply andb_true_iff in Hc as [Hc Hs]. apply N.eqb_eq in Hc.
  by apply negb_true_iff in Hs.
Qed.

Lemma remove_hyphen_space_well_spaced s :
  well_spaced s = true → well_spaced (remove_hyphen_space s) = true.
Proof.
  induction s as [|c|c d s IH1 IH2] using str_ind2; [done..|].
  intros Hw.
  change (remove_hyphen_space (c :: d :: s))
    with (if hyphen_space c d then remove_hyphen_space s
          else c :: remove_hyphen_space (d :: s)).
  pose proof (well_spaced_tail _ _ Hw) as Hw1.
  destruct (hyphen_space c d).
  - apply IH1. by eapply well_spaced_tail.
  - change (well_spaced (c :: ?t))
      with ((negb (isspace c) || ((c =? 32) && negb (starts_with_space t)))
            && well_spaced t).
    rewrite (IH2 Hw1), andb_true_r.
    destruct (isspace c) eqn:Hc; [|done].
    destruct (space_when_well_spaced _ _ Hw Hc) as [-> Hd].
    by rewrite (remove_hyphen_space_starts _ Hw1 Hd).
Qed.

(** What [text.replace] leaves holds no hyphen followed by a space,
    provided all white space was single spaces. *)
Lemma remove_hyphen_space_complete s :
  well_spaced s = true → has_pair hyphen_space (remove_hyphen_space s) = false.
Proof.
  induction s as [|c|c d s IH1 IH2] using str_ind2; [done..|].
  intros Hw.
  change (remove_hyphen_space (c :: d :: s))
    with (if hyphen_space c d then remove_hyphen_space s
          else c :: remove_hyphen_space (d :: s)).
  pose proof (well_spaced_tail _ _ Hw) as Hw1.
  destruct (hyphen_space c d) eqn:Hcd.
  - apply IH1. by eapply well_spaced_tail.
  - change (has_pair hyphen_space (c :: ?t))
      with (match t with e :: _ => hyphen_space c e | [] => false end
            || has_pair hyphen_space t).
    rewrite (IH2 Hw1), orb_false_r.
    destruct (remove_hyphen_space (d :: s)) as [|e t] eqn:E; [done|].
    destruct (hyphen_space c e) eqn:Hce; [|done]. exfalso.
    apply andb_true_iff in Hce as [Hc He].
    apply N.eqb_eq in Hc, He. subst c e.
    assert (isspace d = false) as Hd.
    { destruct (isspace d) eqn:Hd; [|done].
      destruct (space_when_well_spaced _ _ Hw1 Hd) as [-> _].
      by vm_compute in Hcd. }
    pose proof (remove_hyphen_space_starts _ Hw1 Hd) as Hst.
    rewrite E in Hst. by vm_compute in Hst.
Qed.
End substitution_properties.

Section split_camel_properties.
Implicit Types (c d : char) (s t : str).

Lemma split_camel_cons c s :
  split_camel (c :: s) =
  c :: match s with
       | d :: _ => if lower_upper c d then 32 :: split_camel s else split_camel s
       | [] => []
       end.
Proof. destruct s as [|d s]; [done|]. simpl. by destruct (lower_upper c d). Qed.

Lemma has_pair_cons P c d s :
  has_pair P (c :: d :: s) = P c d || has_pair P (d :: s).
Proof. done. Qed.

Lemma well_spaced_cons c s :
  well_spaced (c :: s)
  = (negb (isspace c) || ((c =? 32) && negb (starts_with_space s)))
    && well_spaced s.
Proof. done. Qed.

Lemma split_camel_id s : has_pair lower_upper s = false → split_camel s = s.
Proof.
  induction s as [|c s IH]; [done|]. rewrite split_camel_cons.
  destruct s as [|d s]; [done|]. rewrite has_pair_cons.
  intros [-> Hs]%orb_false_iff. by rewrite IH.
Qed.

Lemma forallb_split_camel (Q : char → bool) s :
  Q 32 = true → forallb Q s = true → forallb Q (split_camel s) = true.
Proof.
  intros Hsp. induction s as [|c s IH]; [done|]. rewrite split_camel_cons.
  change (forallb Q (c :: s)) with (Q c && forallb Q s).
  intros [Hc Hs]%andb_true_iff.
  change (forallb Q (c :: ?t)) with (Q c && forallb Q t). rewrite Hc.
  destruct s as [|d s]; [done|].
  destruct (lower_upper c d).
  - change (forallb Q (32 :: ?t)) with (Q 32 && forallb Q t).
    by rewrite Hsp, IH.
  - by rewrite IH.
Qed.

Lemma has_pair_head P c t :
  has_pair P (c :: t)
  = match t with e :: _ => P c e | [] => false end || has_pair P t.
Proof. done. Qed.

Lemma split_camel_starts s :
  starts_with_space (split_camel s) = starts_with_space s.
Proof. destruct s as [|c s]; [done|]. by rewrite split_camel_cons. Qed.

Lemma split_camel_head_pair P c s :
  match split_camel s with e :: _ => P c e | [] => false end
  = match s with e :: _ => P c e | [] => false end.
Proof. destruct s as [|d s]; [done|]. by rewrite split_camel_cons. Qed.

Lemma split_camel_well_spaced s :
  well_spaced s = true → well_spaced (split_camel s) = true.
Proof.
  induction s as [|c s IH]; [done|]. rewrite split_camel_cons, well_spaced_cons.
  intros [Hc Hs]%andb_true_iff. specialize (IH Hs).
  destruct s as [|d s]; [by rewrite well_spaced_cons, Hc|].
  destruct (lower_upper c d) eqn:Hcd.
  - apply andb_true_iff in Hcd as [Hlow Hup].
    rewrite (well_spaced_cons c), (well_spaced_cons 32), IH.
    rewrite split_camel_starts, (lower_not_space c Hlow).
    cbn [starts_with_space]. by rewrite (upper_not_space d Hup).
  - by rewrite well_spaced_cons, IH, andb_true_r, split_camel_starts.
Qed.

Lemma split_camel_hyphen_space s :
  has_pair hyphen_space s = false →
  has_pair hyphen_space (split_camel s) = false.
Proof.
  induction s as [|c s IH]; [done|]. rewrite split_camel_cons.
  destruct s as [|d s]; [done|]. rewrite has_pair_cons.
  intros [Hcd Hs]%orb_false_iff. specialize (IH Hs).
  destruct (lower_upper c d) eqn:Hlu.
  - apply andb_true_iff in Hlu as [Hlow Hup].
    rewrite has_pair_cons, (has_pair_head _ 32), IH, split_camel_head_pair.
    unfold hyphen_space. by rewrite (lower_not_hyphen c Hlow).
  - by rewrite has_pair_head, IH, split_camel_head_pair, Hcd.
Qed.

(** After the last substitution no lower-case letter is followed by an
    upper-case one. *)
Lemma split_camel_complete s : has_pair lower_upper (split_camel s) = false.
Proof.
  induction s as [|c s IH]; [done|]. rewrite split_camel_cons.
  destruct s as [|d s]; [done|].
  destruct (lower_upper c d) eqn:Hlu.
  - rewrite has_pair_cons, (has_pair_head _ 32), IH, split_camel_head_pair.
    unfold lower_upper.
    change (is_ascii_upper 32) with false. change (is_ascii_lower 32) with false.
    by rewrite andb_false_r.
  - by rewrite has_pair_head, IH, split_camel_head_pair, Hlu.
Qed.
End split_camel_properties.

Section clean_text_properties.
Context `{UnicodeData}.
Implicit Types (x y : str).

Lemma kept_space : kept 32 = true.
Proof. reflexivity. Qed.

Lemma forallb_filter (Q P : char → bool) (s : str) :
  forallb Q s = true → forallb Q (List.filter P s) = true.
Proof.
  induction s as [|c s IH]; [done|]. simpl.
  intros [Hc Hs]%andb_true_iff. destruct (P c); [|by apply IH].
  simpl. by rewrite Hc, IH.
Qed.

(** [clean_text] on a non-empty text, without the dead substitution. *)
Lemma clean_text_unfold x :
  x ≠ [] →
  clean_text x =
  strip (split_camel (remove_hyphen_space
    (List.filter kept (sub_runs isspace 32 false x)))).
Proof.
  intros Hx. unfold clean_text. destruct x as [|c x]; [done|].
  cbv zeta. by rewrite newline_substitution_is_dead.
Qed.

Lemma forallb_clean_text (Q : char → bool) x :
  Q 32 = true → forallb Q (sub_runs isspace 32 false x) = true →
  forallb Q (clean_text x) = true.
Proof.
  intros Hsp Hx. destruct x as [|c x]; [done|].
  rewrite clean_text_unfold by done.
  by apply forallb_strip, forallb_split_camel, forallb_remove_hyphen_space,
    forallb_filter.
Qed.

Lemma clean_text_kept x : forallb kept (clean_text x) = true.
Proof.
  destruct x as [|c x]; [done|]. rewrite clean_text_unfold by done.
  apply forallb_strip, forallb_split_camel, forallb_remove_hyphen_space,
    filter_forallb.
  apply kept_space.
Qed.

(** A text in normal form is a fixed point. *)
Lemma clean_text_fixed y :
  well_spaced y = true →
  has_pair hyphen_space y = false →
  has_pair lower_upper y = false →
  forallb kept y = true →
  strip y = y →
  clean_text y = y.
Proof.
  intros Hw Hhs Hlu Hk Hst. destruct y as [|c y]; [done|].
  rewrite clean_text_unfold by done.
  rewrite well_spaced_sub_runs by done. rewrite filter_id by done.
  rewrite remove_hyphen_space_id by done. by rewrite split_camel_id.
Qed.

(** What [clean_text] returns is in normal form when the character
    filter leaves all white space as single spaces, as it does on a
    text without characters to strip. *)
Lemma clean_text_normal x :
  well_spaced (List.filter kept (sub_runs isspace 32 false x)) = true →
  clean_text (clean_text x) = clean_text x.
Proof.
  intros Hw. destruct x as [|c x]; [done|].
  apply clean_text_fixed; [..|apply clean_text_kept|];
    rewrite clean_text_unfold by done.
  - by apply well_spaced_rstrip, well_spaced_lstrip, split_camel_well_spaced,
      remove_hyphen_space_well_spaced.
  - by apply has_pair_rstrip, has_pair_lstrip, split_camel_hyphen_space,
      remove_hyphen_space_complete.
  - apply has_pair_rstrip, has_pair_lstrip, split_camel_complete.
  - apply strip_strip.
Qed.

Lemma clean_text_safe_input x :
  forallb kept x = true →
  well_spaced (List.filter kept (sub_runs isspace 32 false x)) = true.
Proof.
  intros Hk. rewrite filter_id.
  - apply sub_runs_well_spaced.
  - by apply forallb_sub_runs.
Qed.

(** C6, as amended. [clean_text] is a function on all strings that maps
    the empty string to itself. It is idempotent on every text that has
    only characters of the safe set, and on every text a third
    application changes nothing that the second has left. *)
Theorem clean_text_stabilises x :
  clean_text [] = []
  ∧ (forallb kept x = true → clean_text (clean_text x) = clean_text x)
  ∧ clean_text (clean_text (clean_text x)) = clean_text (clean_text x).
Proof.
  split_and!; [done|..].
  - intros Hk. by apply clean_text_normal, clean_text_safe_input.
  - apply clean_text_normal, clean_text_safe_input, clean_text_kept.
Qed.

(** C7, what the code does. The first substitution turns every newline
    into a space, so the substitution for runs of newlines finds none:
    no result of [clean_text] holds a newline, and two lines come out
    joined by a space. *)
Theorem newlines_become_spaces x :
  (10 ∉ clean_text x)
  ∧ sub_runs (N.eqb 10) 10 false (sub_runs isspace 32 false x)
    = sub_runs isspace 32 false x
  ∧ clean_text (py "first line" ++ [10; 10] ++ py "second line")
    = py "first line second line".
Proof.
  split_and!.
  - assert (forallb (λ c, negb (10 =? c)) (clean_text x) = true) as Hx.
    { apply forallb_clean_text; [done|].
      apply well_spaced_no_newline, sub_runs_well_spaced. }
    rewrite forallb_forall in Hx. intros Hin%list_elem_of_In.
    by specialize (Hx _ Hin).
  - apply newline_substitution_is_dead.
  - by vm_compute.
Qed.
End clean_text_properties.

Local Close Scope N_scope.

(** * Further properties of the analysis cache *)

Section cache_composition.
Context `{Json}.
Implicit Types (db : database) (h : str) (p : value) (r : row).

(** Writes and reads of one digest do not touch the row of another,
    and whether a sweep deletes a row depends on that row alone. *)
Theorem cache_operations_are_local h h' db :
  h ≠ h' →
  (∀ now p, analysis_cache (cache_analysis now h p db) !! h'
            = analysis_cache db !! h')
  ∧ (∀ now now', analysis_cache (get_cached_analysis now now' h db).1 !! h'
                 = analysis_cache db !! h')
  ∧ (∀ now p sweep_time,
       analysis_cache (cleanup_old_cache sweep_time (cache_analysis now h p db)).1 !! h'
       = analysis_cache (cleanup_old_cache sweep_time db).1 !! h').
Proof.
  intros Hne. split_and!.
  - intros. by apply cache_analysis_other.
  - intros. by apply get_cached_analysis_other.
  - intros. by rewrite !cleanup_old_cache_lookup, cache_analysis_other.
Qed.

Lemma cleanup_old_cache_count now db :
  (size (analysis_cache db) - size (analysis_cache (cleanup_old_cache now db).1))%nat
  = size (filter (λ kr : str * row, created_at kr.2 < now - days 7)
            (analysis_cache db)).
Proof.
  set (P := λ kr : str * row, created_at kr.2 < now - days 7).
  assert (size (analysis_cache db)
          = (size (filter P (analysis_cache db))
             + size (filter (λ kr, ¬ P kr) (analysis_cache db)))%nat) as Hsize.
  { rewrite <- map_size_disj_union by apply map_disjoint_filter_complement.
    by rewrite map_filter_union_complement. }
  unfold cleanup_old_cache. cbn [fst analysis_cache].
  change (filter (λ kr : str * row, ¬ created_at kr.2 < now - days 7)
            (analysis_cache db))
    with (filter (λ kr, ¬ P kr) (analysis_cache db)).
  lia.
Qed.

(** The sweep keeps exactly the rows created no more than seven days
    before it runs; it logs the number of the others when there are
    any, in decimal, and nothing otherwise; it never deletes a row that
    a read at the same time would serve; and a sweep right after a
    sweep deletes nothing and logs nothing. *)
Theorem cleanup_old_cache_sweeps_old_rows now db :
  let swept := (cleanup_old_cache now db).1 in
  let deleted := size (filter (λ kr : str * row, days 7 < now - created_at kr.2)
                         (analysis_cache db)) in
  (∀ h r, analysis_cache swept !! h = Some r ↔
          analysis_cache db !! h = Some r ∧ now - created_at r ≤ days 7)
  ∧ (size (analysis_cache db) = size (analysis_cache swept) + deleted)%nat
  ∧ (cleanup_old_cache now db).2
    = (if bool_decide (deleted = 0%nat) then []
       else [LogInfo (py "Cleaned up "
                      ++ py (DecimalString.NilZero.string_of_uint (Nat.to_uint deleted))
                      ++ py " old cache entries")])
  ∧ sqlite_sequence swept = sqlite_sequence db
  ∧ (∀ h now' p, (get_cached_analysis now now' h db).2 = Some p →
                 (get_cached_analysis now now' h swept).2 = Some p)
  ∧ cleanup_old_cache now swept = (swept, []).
Proof.
  intros swept deleted.
  assert ((size (analysis_cache db) - size (analysis_cache swept))%nat = deleted)
    as Hdeleted.
  { subst swept deleted. rewrite cleanup_old_cache_count. f_equal.
    apply map_filter_ext. intros h r _. simpl. lia. }
  assert (size (analysis_cache swept) ≤ size (analysis_cache db))%nat as Hle.
  { subst swept. unfold cleanup_old_cache. cbn [fst analysis_cache].
    apply map_subseteq_size, map_filter_subseteq. }
  split_and!.
  - intros h r. subst swept. rewrite cleanup_old_cache_lookup.
    destruct (analysis_cache db !! h) as [r'|].
    + case_bool_decide as Hold.
      * split; [done|]. intros [[= ->] Hle']. lia.
      * split; [intros [= ->]; split; [done|lia]|]. by intros [[= ->] _].
    + split; [done|]. by intros [? _].
  - lia.
  - assert ((cleanup_old_cache now db).2
            = (let n := (size (analysis_cache db) - size (analysis_cache swept))%nat in
               if bool_decide (0 < n)%nat then
                 [LogInfo (py "Cleaned up "
                           ++ py (DecimalString.NilZero.string_of_uint (Nat.to_uint n))
                           ++ py " old cache entries")]
               else [])) as -> by reflexivity.
    rewrite Hdeleted. cbv zeta.
    destruct (decide (deleted = 0%nat)) as [Hzero|Hpos].
    + rewrite bool_decide_eq_false_2, bool_decide_eq_true_2 by lia. done.
    + rewrite bool_decide_eq_true_2, bool_decide_eq_false_2 by lia. done.
  - done.
  - intros h now' p. unfold get_cached_analysis. subst swept.
    rewrite cleanup_old_cache_lookup.
    destruct (analysis_cache db !! h) as [r|]; [|done].
    case_bool_decide as Hfresh; [|done].
    rewrite bool_decide_eq_false_2 by (unfold hours, days in *; lia).
    rewrite bool_decide_eq_true_2 by done.
    by destruct (json_loads (analysis_result r)).
  - assert (filter (λ kr : str * row, ¬ created_at kr.2 < now - days 7)
              (analysis_cache swept) = analysis_cache swept) as Hfix.
    { apply map_filter_id. intros h r Hr. subst swept.
      rewrite cleanup_old_cache_lookup in Hr.
      destruct (analysis_cache db !! h) as [r'|]; [|done].
      case_bool_decide; [done|]. injection Hr as <-. simpl. lia. }
    unfold cleanup_old_cache at 1. rewrite Hfix, Nat.sub_diag.
    rewrite bool_decide_eq_false_2 by lia.
    by destruct swept.
Qed.

Lemma sqlite_integer_true n :
  - 2 ^ 63 ≤ n < 2 ^ 63 → sqlite_integer n = true.
Proof.
  intros Hn. unfold sqlite_integer.
  by rewrite (proj2 (Z.leb_le _ _)), (proj2 (Z.ltb_lt _ _)) by lia.
Qed.

(** Reads count but do not refresh: after any number of reads of a row
    that is less than 24 hours old at each of them, and whose count of
    accesses is an [INTEGER] before each of them, the row has its
    creation time and text unchanged, one more access per read, and the
    time of the last update as its last access; once it is 24 hours old
    a read returns nothing, however often it was read before. *)
Theorem reads_count_but_do_not_refresh times h db r :
  analysis_cache db !! h = Some r →
  (∀ tt, tt ∈ times → tt.1 - created_at r < hours 24) →
  - 2 ^ 63 ≤ accessed_count r →
  accessed_count r + Z.of_nat (length times) ≤ 2 ^ 63 →
  ∃ db',
    get_repeatedly times h db = Some db'
    ∧ analysis_cache db' !! h
      = Some {| id := id r;
                analysis_result := analysis_result r;
                created_at := created_at r;
                accessed_count := accessed_count r + Z.of_nat (length times);
                last_accessed := default (last_accessed r) (snd <$> last times) |}
    ∧ (∀ h', h ≠ h' → analysis_cache db' !! h' = analysis_cache db !! h')
    ∧ (∀ now now', hours 24 ≤ now - created_at r →
         get_cached_analysis now now' h db' = (db', None)).
Proof.
  intros Hr Hfresh Hlow Hhigh.
  assert (∃ db',
            get_repeatedly times h db = Some db'
            ∧ analysis_cache db' !! h
              = Some {| id := id r;
                        analysis_result := analysis_result r;
                        created_at := created_at r;
                        accessed_count := accessed_count r + Z.of_nat (length times);
                        last_accessed := default (last_accessed r) (snd <$> last times) |}
            ∧ ∀ h', h ≠ h' → analysis_cache db' !! h' = analysis_cache db !! h')
    as (db' & Hreads & Hrow & Hframe).
  { revert db r Hr Hfresh Hlow Hhigh.
    induction times as [|tt times IH]; intros db r Hr Hfresh Hlow Hhigh.
    - exists db. split; [done|]. split; [|done]. rewrite Hr. f_equal.
      destruct r; simpl. f_equal. lia.
    - rewrite length_cons in Hhigh.
      assert (tt.1 - created_at r < hours 24) as Htt by (apply Hfresh; left).
      assert (analysis_cache (get_cached_analysis tt.1 tt.2 h db).1 !! h
              = Some (touch tt.2 r)) as Hr1.
      { unfold get_cached_analysis. rewrite Hr.
        rewrite bool_decide_eq_true_2 by lia.
        destruct (json_loads _); simpl; by rewrite lookup_insert_eq. }
      destruct (IH _ _ Hr1) as (db' & IHreads & IHrow & IHframe).
      { intros tt' Htt'. simpl. apply Hfresh. by right. }
      { cbn [touch accessed_count]. lia. }
      { cbn [touch accessed_count]. lia. }
      exists db'. split_and!.
      + cbn [get_repeatedly]. rewrite Hr, sqlite_integer_true by lia. done.
      + rewrite IHrow. f_equal. unfold touch. cbn [id analysis_result created_at
          accessed_count last_accessed]. f_equal.
        * rewrite length_cons. lia.
        * destruct times as [|tt' times]; [done|].
          rewrite last_cons_cons.
          destruct (last (tt' :: times)) eqn:E; [done|].
          by apply last_None in E.
      + intros h' Hne. rewrite IHframe by done.
        by apply get_cached_analysis_other. }
  exists db'. split_and!; [done..|].
  intros now now' Hold.
  eapply get_cached_analysis_stale; [exact Hrow|]. simpl. done.
Qed.

Lemma get_cached_analysis_rowid now now' h db h' r' :
  analysis_cache (get_cached_analysis now now' h db).1 !! h' = Some r' →
  ∃ r0, analysis_cache db !! h' = Some r0 ∧ id r0 = id r'.
Proof.
  destruct (decide (h = h')) as [<-|Hne].
  - unfold get_cached_analysis.
    destruct (analysis_cache db !! h) as [r|] eqn:Hr;
      [|simpl; intros Hr'; congruence].
    case_bool_decide;
      [|simpl; intros Hr'; rewrite Hr in Hr'; injection Hr' as <-; by eauto].
    destruct (json_loads _); simpl; rewrite lookup_insert_eq;
      intros [= <-]; eauto.
  - rewrite get_cached_analysis_other by done. eauto.
Qed.

(** The row ids stay those of an [AUTOINCREMENT] key under every
    operation: positive, bounded by the sequence value, and distinct. *)
Theorem rowids_stay_consistent :
  rowids_consistent empty_database
  ∧ (∀ db, rowids_consistent db →
       (∀ now h p, rowids_consistent (cache_analysis now h p db))
       ∧ (∀ now now' h, rowids_consistent (get_cached_analysis now now' h db).1)
       ∧ (∀ now, rowids_consistent (cleanup_old_cache now db).1)).
Proof.
  split.
  - split_and!; [done|..]; intros ?; intros; simpl in *;
      by rewrite lookup_empty in *.
  - intros db (Hseq & Hbound & Hdistinct). split_and!.
    + intros now h p.
      assert (∀ h' r', analysis_cache (cache_analysis now h p db) !! h' = Some r' →
                (h' = h ∧ id r' = sqlite_sequence db + 1)
                ∨ (h' ≠ h ∧ analysis_cache db !! h' = Some r')) as Hrows.
      { intros h' r'. destruct (decide (h = h')) as [<-|Hne].
        - rewrite cache_analysis_lookup. intros [= <-]. by left.
        - rewrite cache_analysis_other by done. intros ?. right. by split. }
      split_and!.
      * simpl. lia.
      * intros h' r' [[-> Hid]|[_ Hr]]%Hrows; simpl.
        -- lia.
        -- specialize (Hbound _ _ Hr). lia.
      * intros h1 h2 r1 r2 [[-> Hid1]|[Hne1 Hr1]]%Hrows
          [[-> Hid2]|[Hne2 Hr2]]%Hrows Hid; [done|..].
        -- specialize (Hbound _ _ Hr2). lia.
        -- specialize (Hbound _ _ Hr1). lia.
        -- by eapply Hdistinct.
    + intros now now' h. split_and!.
      * unfold get_cached_analysis.
        destruct (analysis_cache db !! h) as [r|]; [|done].
        case_bool_decide; [|done]. by destruct (json_loads _).
      * intros h' r' (r0 & Hr0 & <-)%get_cached_analysis_rowid.
        specialize (Hbound _ _ Hr0).
        assert (sqlite_sequence (get_cached_analysis now now' h db).1
                = sqlite_sequence db) as ->; [|done].
        unfold get_cached_analysis.
        destruct (analysis_cache db !! h) as [r|]; [|done].
        case_bool_decide; [|done]. by destruct (json_loads _).
      * intros h1 h2 r1 r2 (r01 & Hr1 & <-)%get_cached_analysis_rowid
          (r02 & Hr2 & <-)%get_cached_analysis_rowid Hid.
        by eapply Hdistinct.
    + intros now.
      assert (∀ h r, analysis_cache (cleanup_old_cache now db).1 !! h = Some r →
                     analysis_cache db !! h = Some r) as Hsub.
      { intros h r. rewrite cleanup_old_cache_lookup.
        destruct (analysis_cache db !! h) as [r'|]; [|done].
        by case_bool_decide. }
      split_and!.
      * done.
      * intros h r Hr%Hsub. by apply (Hbound h).
      * intros h1 h2 r1 r2 Hr1%Hsub Hr2%Hsub. by apply Hdistinct.
Qed.
End cache_composition.

(** * Properties of the content validation *)

Section validation_properties.
Context `{UnicodeData}.

Lemma length_lstrip (s : str) : (length (lstrip s) ≤ length s)%nat.
Proof.
  induction s as [|c s IH]; [done|]. simpl.
  destruct (isspace c); simpl; lia.
Qed.

Lemma length_rstrip (s : str) : (length (rstrip s) ≤ length s)%nat.
Proof.
  induction s as [|c s IH]; [done|]. rewrite rstrip_cons.
  destruct (isspace c && _); simpl; lia.
Qed.

Lemma length_strip (s : str) : (length (strip s) ≤ length s)%nat.
Proof.
  unfold strip. etransitivity; [apply length_rstrip|apply length_lstrip].
Qed.

(** The content is accepted exactly when it has at least 50 characters
    after stripping, at most 50000 in all, and one of the ten keywords
    occurs in its lower-cased form; then its length lies between 50 and
    50000. A content that is too short after stripping is reported as
    such whatever its length, and the flag is true only together with
    the message of acceptance. *)
Theorem validate_resume_content_accepts (content : str) :
  (validate_resume_content content = (true, py "Valid") ↔
     (50 ≤ length (strip content))%nat
     ∧ Z.of_nat (length content) ≤ 50000
     ∧ ∃ keyword, keyword ∈ experience_keywords ++ skills_keywords
                  ∧ contains keyword (lower content) = true)
  ∧ ((validate_resume_content content).1 = true →
       validate_resume_content content = (true, py "Valid")
       ∧ 50 ≤ Z.of_nat (length content) ≤ 50000)
  ∧ ((length (strip content) < 50)%nat →
       validate_resume_content content
       = (false, py "Resume content too short (minimum 50 characters required)")).
Proof.
  assert (validate_resume_content content = (true, py "Valid") ↔
     (50 ≤ length (strip content))%nat
     ∧ Z.of_nat (length content) ≤ 50000
     ∧ ∃ keyword, keyword ∈ experience_keywords ++ skills_keywords
                  ∧ contains keyword (lower content) = true) as Hiff.
  { unfold validate_resume_content.
    destruct (Nat.ltb_spec (length (strip content)) 50) as [Hshort|Hlong].
    { rewrite orb_true_r. split; [done|]. intros [? _]. lia. }
    rewrite orb_false_r.
    case_bool_decide as Hnil.
    { subst content. simpl in Hlong. lia. }
    destruct (Z.ltb_spec 50000 (Z.of_nat (length content))) as [Hbig|Hsmall].
    { split; [done|]. intros (_ & ? & _). lia. }
    cbv zeta. rewrite <- existsb_app.
    destruct (existsb _ (experience_keywords ++ skills_keywords)) eqn:Hkw; simpl.
    - split; [|done]. intros _. split_and!; [done|lia|].
      apply existsb_exists in Hkw as (kw & Hin & Hkw).
      exists kw. by rewrite list_elem_of_In.
    - split; [done|]. intros (_ & _ & kw & Hin & Hfound). exfalso.
      apply not_true_iff_false in Hkw. apply Hkw, existsb_exists.
      exists kw. by rewrite <- list_elem_of_In. }
  split_and!; [done|..].
  - intros Hflag.
    assert (validate_resume_content content = (true, py "Valid")) as Hvalid.
    { revert Hflag. unfold validate_resume_content.
      repeat (case_match; try done). }
    split; [done|]. apply Hiff in Hvalid as (Hmin & Hmax & _).
    pose proof (length_strip content). lia.
  - intros Hshort. unfold validate_resume_content.
    destruct (Nat.ltb_spec (length (strip content)) 50); [|lia].
    by rewrite orb_true_r.
Qed.
End validation_properties.

(** * Further properties of the extraction pipeline *)

Local Open Scope N_scope.

Section cleaning_shape.
Context `{UnicodeData}.
Implicit Types (x y s : str).

Lemma well_spaced_only_spaces s :
  well_spaced s = true →
  forallb (λ c, negb (isspace c) || (c =? 32)%N) s = true.
Proof.
  induction s as [|c s IH]; [done|]. rewrite well_spaced_cons.
  intros [Hc Hs]%andb_true_iff.
  change (forallb ?Q (c :: s)) with (Q c && forallb Q s).
  rewrite (IH Hs), andb_true_r.
  destruct (isspace c); [|done]. simpl in *.
  by apply andb_true_iff in Hc as [-> _].
Qed.

(** Whatever the text, what [clean_text] returns holds only characters
    of the safe set, no white space but spaces, no lower-case letter
    directly followed by an upper-case one, and no white space at
    either end. *)
Theorem clean_text_output_shape x :
  let y := clean_text x in
  forallb kept y = true
  ∧ forallb (λ c, negb (isspace c) || (c =? 32)%N) y = true
  ∧ has_pair lower_upper y = false
  ∧ strip y = y
  ∧ starts_with_space y = false.
Proof.
  intros y. subst y. split_and!.
  - apply clean_text_kept.
  - apply forallb_clean_text; [done|].
    apply well_spaced_only_spaces, sub_runs_well_spaced.
  - destruct x as [|c x]; [done|]. rewrite clean_text_unfold by done.
    apply has_pair_rstrip, has_pair_lstrip, split_camel_complete.
  - destruct x as [|c x]; [done|]. rewrite clean_text_unfold by done.
    apply strip_strip.
  - destruct x as [|c x]; [done|]. rewrite clean_text_unfold by done.
    apply strip_starts.
Qed.

Lemma filter_kept_blank b x :
  forallb (λ c, isspace c || negb (kept c)) x = true →
  forallb (N.eqb 32) (List.filter kept (sub_runs isspace 32 b x)) = true.
Proof.
  revert b. induction x as [|c x IH]; intros b; [done|].
  change (forallb ?Q (c :: x)) with (Q c && forallb Q x).
  intros [Hc Hx]%andb_true_iff. cbn [sub_runs].
  destruct (isspace c) eqn:Hsp.
  - destruct b; [by apply IH|].
    cbn [List.filter]. rewrite kept_space.
    change (forallb ?Q (32%N :: ?t)) with (Q 32%N && forallb Q t).
    by rewrite IH.
  - simpl in Hc. apply negb_true_iff in Hc.
    cbn [List.filter]. rewrite Hc. by apply IH.
Qed.

Lemma lstrip_blank s : forallb isspace s = true → lstrip s = [].
Proof.
  induction s as [|c s IH]; [done|]. simpl.
  intros [-> Hs]%andb_true_iff. by apply IH.
Qed.

Lemma forallb_impl (P Q : char → bool) s :
  (∀ c, P c = true → Q c = true) → forallb P s = true → forallb Q s = true.
Proof.
  intros HPQ. induction s as [|c s IH]; [done|]. simpl.
  intros [Hc Hs]%andb_true_iff. by rewrite (HPQ c Hc), IH.
Qed.

(** A text of nothing but white space and characters outside the safe
    set is cleaned to the empty string. *)
Theorem clean_text_blank x :
  forallb (λ c, isspace c || negb (kept c)) x = true → clean_text x = [].
Proof.
  intros Hx. destruct x as [|c x]; [done|].
  rewrite clean_text_unfold by done. unfold strip.
  rewrite lstrip_blank; [done|].
  apply (forallb_impl (N.eqb 32)).
  { intros d Hd%N.eqb_eq. by subst d. }
  apply forallb_split_camel; [done|].
  apply forallb_remove_hyphen_space.
  by apply filter_kept_blank.
Qed.
End cleaning_shape.

Local Close Scope N_scope.

Section pipeline_edges.
Context `{UnicodeData, PdfLibs, Nltk, Textstat}.

(** A text with tokens of which none is alphabetic passes the length
    test, but the average word length divides by zero: the result is
    the error dictionary with the white-space word count and the
    full-stop sentence count, without scores or level. *)
Theorem analyze_readability_without_alphabetic_token
    text sentences words fre fkg ari :
  (10 ≤ length (strip text))%nat →
  sent_tokenize text = Ok sentences →
  word_tokenize text = Ok words →
  flesch_reading_ease text = Ok fre →
  flesch_kincaid_grade text = Ok fkg →
  automated_readability_index text = Ok ari →
  words ≠ [] →
  List.filter isalpha words = [] →
  analyze_readability text
  = ([ (py "error", VStr (py "division by zero"));
       (py "word_count", VInt (Z.of_nat (count_fields false text)));
       (py "sentence_count", VInt (Z.of_nat (count_split 46%N text))) ],
     [LogError (py "Error calculating readability: division by zero")]).
Proof.
  intros Hlen Hs Hw Hfre Hfkg Hari Hwords Halpha.
  unfold analyze_readability.
  destruct text as [|c text]; [simpl in Hlen; lia|].
  rewrite bool_decide_eq_false_2 by done.
  destruct (Nat.ltb_spec (length (strip (c :: text))) 10); [lia|].
  cbn [orb]. unfold readability_scores.
  rewrite Hs, Hw, Hfre, Hfkg, Hari. simpl.
  assert (∃ v, match sentences with
               | [] => mret (VInt 0)
               | _ :: _ => VFloat <$> true_div (length words) (length sentences)
               end = Ok v) as [v1 ->].
  { destruct sentences; simpl; eauto. }
  simpl. rewrite Halpha. destruct words as [|w words]; [done|]. done.
Qed.

Lemma extract_key_phrases_words text :
  ∃ words, ∀ top_n,
    (extract_key_phrases text top_n).1 =
      fst <$> most_common (Counter (List.filter key_word words)) top_n.
Proof.
  unfold extract_key_phrases. destruct text as [|c text].
  - exists []. intros top_n. unfold most_common. simpl. by rewrite take_nil.
  - destruct (word_tokenize (lower (c :: text))) as [words|e].
    + by exists words.
    + exists []. intros top_n. unfold most_common. simpl. by rewrite take_nil.
Qed.

(** Asking for fewer key phrases gives a prefix of what asking for more
    gives. *)
Theorem key_phrases_are_nested text n m :
  n ≤ m →
  (extract_key_phrases text n).1
  = take (Z.to_nat n) (extract_key_phrases text m).1.
Proof.
  intros Hnm. destruct (extract_key_phrases_words text) as [words Hwords].
  rewrite !Hwords. unfold most_common.
  rewrite <- fmap_take, take_take. do 2 f_equal. lia.
Qed.

Lemma startswith_space_false (p s : str) c :
  isspace c = false → forallb isspace s = true → s ≠ [] →
  startswith (c :: p) s = false.
Proof.
  intros Hc Hs Hne. destruct s as [|d s]; [done|]. simpl in *.
  apply andb_true_iff in Hs as [Hd _].
  destruct (N.eqb_spec c d) as [->|]; [congruence|done].
Qed.

(** A document whose text begins with the error marker is reported as
    a failed extraction, although pdfplumber read it without error. *)
Theorem process_pdf_rejects_error_prefix b data texts :
  pdfplumber_pages (b :: data) = Pages texts →
  startswith (py "Error:") (plumber_text texts) = true →
  process_pdf None (Some (b :: data))
  = ([ (py "error", VStr (py "Failed to extract text from PDF"));
       (py "raw_text", VStr (plumber_text texts));
       (py "success", VBool false) ],
     [LogInfo (py "Processing PDF from bytes"); OpenPdfplumber (b :: data)]).
Proof.
  intros Hplumber Hmark. unfold process_pdf, raw_text_of.
  rewrite (extract_text_primary_only _ _ Hplumber), Hmark.
  by rewrite orb_true_r.
Qed.

(** A path takes precedence over bytes. When the file cannot be read,
    the result is the failure with the message of the exception; when it
    can, its content goes to the extraction even if it is empty. *)
Theorem process_pdf_prefers_path c path pdf_bytes :
  process_pdf (Some (c :: path)) pdf_bytes = process_pdf (Some (c :: path)) None
  ∧ (∀ e, read_file (c :: path) = Raise e →
       process_pdf (Some (c :: path)) pdf_bytes
       = ([ (py "error", VStr e);
            (py "success", VBool false);
            (py "raw_text", VStr []);
            (py "cleaned_text", VStr []) ],
          [LogInfo (py "Processing PDF file: " ++ c :: path);
           LogError (py "Error processing PDF: " ++ e)]))
  ∧ (∀ data, read_file (c :: path) = Ok data →
       raw_text_of (Some (c :: path)) pdf_bytes
       = (Ok (extract_text_from_bytes data).1,
          LogInfo (py "Processing PDF file: " ++ c :: path)
          :: (extract_text_from_bytes data).2)).
Proof.
  split_and!.
  - done.
  - intros e He. unfold process_pdf, raw_text_of, extract_text_from_file.
    by rewrite He.
  - intros data Hdata. unfold raw_text_of, extract_text_from_file.
    rewrite Hdata. simpl. by destruct (extract_text_from_bytes data).
Qed.

Lemma pypdf2_text_blank texts :
  Forall (λ t, forallb isspace t = true) texts →
  forallb isspace (pypdf2_text texts) = true.
Proof.
  induction 1 as [|t texts Ht _ IH]; [done|].
  change (pypdf2_text (t :: texts)) with ((t ++ [10%N]) ++ pypdf2_text texts).
  by rewrite !forallb_app, Ht, IH.
Qed.

(** Pages without text count once PyPDF2 reads them: when pdfplumber
    raises before finding text and PyPDF2 returns at least one page, all
    of them blank, the raw text is white space, [process_pdf] reports
    success, and the cleaned text, the key phrases and the word count
    are empty. *)
Theorem process_pdf_accepts_blank_fallback_pages b data texts e texts2 :
  pdfplumber_pages (b :: data) = Broken texts e →
  plumber_text texts = [] →
  pypdf2_pages (b :: data) = Pages texts2 →
  texts2 ≠ [] →
  Forall (λ t, forallb isspace t = true) texts2 →
  (process_pdf None (Some (b :: data))).1
  = [ (py "raw_text", VStr (pypdf2_text texts2));
      (py "cleaned_text", VStr []);
      (py "readability_metrics",
       VDict [ (py "error", VStr (py "Text too short for analysis"));
               (py "word_count", VInt 0);
               (py "sentence_count", VInt 0) ]);
      (py "key_phrases", VList []);
      (py "text_length", VInt 0);
      (py "word_count", VInt 0);
      (py "success", VBool true) ].
Proof.
  intros Hplumber Hempty Hpypdf Hpages Hblank.
  pose proof (pypdf2_text_blank _ Hblank) as Hspace.
  assert (pypdf2_text texts2 ≠ []) as Hne.
  { destruct texts2 as [|t texts2]; [done|]. unfold pypdf2_text. simpl.
    by destruct t. }
  unfold process_pdf, raw_text_of, extract_text_from_bytes.
  rewrite Hplumber, Hpypdf, Hempty. cbn [app fst snd].
  rewrite bool_decide_eq_false_2 by done.
  assert (startswith (py "Error:") (pypdf2_text texts2) = false) as ->.
  { by apply (startswith_space_false (py "rror:") _ 69%N). }
  cbn [orb].
  rewrite clean_text_blank.
  - reflexivity.
  - eapply forallb_impl; [|exact Hspace]. by intros c ->.
Qed.
End pipeline_edges.

(** * Properties of the analyzer *)

Section analyzer_properties.
Context `{UnicodeData, PdfLibs, Nltk, Textstat, Builtins, CrewRun}.

(** A blank text is refused before the crew is started. Otherwise the
    crew is started once, on the text with its readability dictionary
    and key phrases, and the analysis succeeds exactly when the crew
    returns; an exception of the crew becomes the error of the result.
    A text that is too short for the readability analysis is analysed
    all the same, with the level reported as unknown. *)
Theorem analyze_resume_from_text_outcomes resume_text user_profile :
  let out := analyze_resume_from_text resume_text user_profile in
  (strip resume_text = [] →
     out = (analysis_failure (py "Resume text cannot be empty")
              (py "Text analysis failed"), []))
  ∧ (strip resume_text ≠ [] →
       ∃ inputs,
         out.2 = [inputs]
         ∧ dict_lookup inputs (py "resume_text") = Some (VStr resume_text)
         ∧ dict_lookup inputs (py "readability_metrics")
           = Some (VDict (analyze_readability resume_text).1)
         ∧ dict_lookup inputs (py "key_phrases")
           = Some (strs (extract_key_phrases resume_text default_top_n).1)
         ∧ match kickoff inputs with
           | Ok crew_result =>
               dict_lookup out.1 (py "success") = Some (VBool true)
               ∧ dict_lookup out.1 (py "crew_analysis") = Some crew_result
               ∧ dict_lookup out.1 (py "error") = None
           | Raise e => out.1 = analysis_failure e (py "Text analysis failed")
           end)
  ∧ (strip resume_text ≠ [] → (length (strip resume_text) < 10)%nat →
       ∀ crew_result, kickoff
         [ (py "resume_text", VStr resume_text);
           (py "user_profile", profile_or_empty user_profile);
           (py "readability_metrics", VDict (analyze_readability resume_text).1);
           (py "key_phrases",
            strs (extract_key_phrases resume_text default_top_n).1) ]
         = Ok crew_result →
       ∃ analysis,
         dict_lookup out.1 (py "readability_analysis") = Some (VDict analysis)
         ∧ dict_lookup analysis (py "readability_level")
           = Some (VStr (py "Unknown"))).
Proof.
  intros out. subst out. unfold analyze_resume_from_text. split_and!.
  - intros Hblank. by rewrite bool_decide_eq_true_2.
  - intros Hblank. rewrite bool_decide_eq_false_2 by done. cbv zeta.
    generalize (analyze_readability resume_text).1 as metrics.
    generalize (extract_key_phrases resume_text default_top_n).1 as phrases.
    generalize (profile_or_empty user_profile) as profile.
    intros profile phrases metrics.
    exists [ (py "resume_text", VStr resume_text);
             (py "user_profile", profile);
             (py "readability_metrics", VDict metrics);
             (py "key_phrases", strs phrases) ].
    destruct (kickoff _) as [crew_result|e]; by vm_compute.
  - intros Hblank Hshort crew_result Hcrew.
    rewrite bool_decide_eq_false_2 by done. cbv zeta. rewrite Hcrew.
    assert ((analyze_readability resume_text).1
            = [ (py "error", VStr (py "Text too short for analysis"));
                (py "word_count", VInt 0);
                (py "sentence_count", VInt 0) ]) as ->.
    { unfold analyze_readability.
      apply Nat.ltb_lt in Hshort. by rewrite Hshort, orb_true_r. }
    clear Hcrew.
    generalize (extract_key_phrases resume_text default_top_n).1 as phrases.
    intros phrases.
    eexists. split; [reflexivity|]. by vm_compute.
Qed.

Lemma pdf_inputs_failed pdf_data user_profile e :
  dict_lookup pdf_data (py "success") = Some (VBool false) →
  dict_lookup pdf_data (py "error") = Some (VStr e) →
  pdf_inputs pdf_data user_profile = Raise (py "PDF processing failed: " ++ e).
Proof.
  intros Hsuccess Herror. unfold pdf_inputs, dict_get.
  rewrite Hsuccess, Herror. simpl. by rewrite str_of_str.
Qed.

(** When [process_pdf] fails, the analyzer fails with the error of
    [process_pdf] behind a fixed prefix, and the crew is not started:
    so it is for empty bytes, for bytes that both parsers reject, and
    for a document in which pdfplumber finds no text. *)
Theorem analyze_resume_from_pdf_propagates_failure data user_profile :
  (data = [] →
     analyze_resume_from_pdf None (Some data) user_profile
     = (analysis_failure
          (py "PDF processing failed: Either pdf_path or pdf_bytes must be provided")
          (py "PDF analysis failed"), []))
  ∧ ((∃ texts e texts2 e2,
        pdfplumber_pages data = Broken texts e
        ∧ pypdf2_pages data = Broken texts2 e2)
     ∨ (∃ texts, pdfplumber_pages data = Pages texts ∧ plumber_text texts = []) →
     data ≠ [] →
     analyze_resume_from_pdf None (Some data) user_profile
     = (analysis_failure
          (py "PDF processing failed: Failed to extract text from PDF")
          (py "PDF analysis failed"), [])).
Proof.
  split.
  - intros ->. unfold analyze_resume_from_pdf.
    rewrite (pdf_inputs_failed _ _
               (py "Either pdf_path or pdf_bytes must be provided"));
      by vm_compute.
  - intros Hfail Hne. destruct data as [|b data]; [done|].
    unfold analyze_resume_from_pdf.
    rewrite (pdf_inputs_failed _ _ (py "Failed to extract text from PDF")).
    + done.
    + unfold process_pdf, raw_text_of.
      destruct Hfail as [(texts & e & texts2 & e2 & Hplumber & Hpypdf)
                        |(texts & Hplumber & Hempty)].
      * pose proof (extract_text_both_broken _ _ _ _ _ Hplumber Hpypdf) as Ht.
        destruct (extract_text_from_bytes (b :: data)) as [text log].
        simpl in Ht. subst text. by vm_compute.
      * rewrite (extract_text_primary_only _ _ Hplumber), Hempty. by vm_compute.
    + unfold process_pdf, raw_text_of.
      destruct Hfail as [(texts & e & texts2 & e2 & Hplumber & Hpypdf)
                        |(texts & Hplumber & Hempty)].
      * pose proof (extract_text_both_broken _ _ _ _ _ Hplumber Hpypdf) as Ht.
        destruct (extract_text_from_bytes (b :: data)) as [text log].
        simpl in Ht. subst text. by vm_compute.
      * rewrite (extract_text_primary_only _ _ Hplumber), Hempty. by vm_compute.
Qed.

(** The result of [process_pdf] when the extraction succeeded. *)
Lemma process_pdf_success pdf_path pdf_bytes raw_text log :
  raw_text_of pdf_path pdf_bytes = (Ok raw_text, log) →
  raw_text ≠ [] →
  startswith (py "Error:") raw_text = false →
  (process_pdf pdf_path pdf_bytes).1
  = [ (py "raw_text", VStr raw_text);
      (py "cleaned_text", VStr (clean_text raw_text));
      (py "readability_metrics",
       VDict (analyze_readability (clean_text raw_text)).1);
      (py "key_phrases",
       strs (extract_key_phrases (clean_text raw_text) default_top_n).1);
      (py "text_length", len (clean_text raw_text));
      (py "word_count",
       dict_get (analyze_readability (clean_text raw_text)).1
         (py "word_count") (VInt 0));
      (py "success", VBool true) ].
Proof.
  intros Hraw Hne Hmark. unfold process_pdf. rewrite Hraw, Hmark.
  rewrite bool_decide_eq_false_2 by done. simpl.
  destruct (analyze_readability (clean_text raw_text)) as [metrics log1].
  by destruct (extract_key_phrases (clean_text raw_text) default_top_n).
Qed.

(** When the extraction succeeds, the analyzer refuses a document whose
    cleaned text is empty without starting the crew, although
    [process_pdf] reported success. Otherwise it starts the crew once,
    on the cleaned text, and succeeds exactly when the crew returns. *)
Theorem analyze_resume_from_pdf_outcomes
    pdf_path pdf_bytes user_profile raw_text log :
  raw_text_of pdf_path pdf_bytes = (Ok raw_text, log) →
  raw_text ≠ [] →
  startswith (py "Error:") raw_text = false →
  let out := analyze_resume_from_pdf pdf_path pdf_bytes user_profile in
  (clean_text raw_text = [] →
     out = (analysis_failure (py "No text could be extracted from the PDF")
              (py "PDF analysis failed"), []))
  ∧ (clean_text raw_text ≠ [] →
       ∃ inputs,
         out.2 = [inputs]
         ∧ dict_lookup inputs (py "resume_text")
           = Some (VStr (clean_text raw_text))
         ∧ match kickoff inputs with
           | Ok crew_result =>
               dict_lookup out.1 (py "success") = Some (VBool true)
               ∧ dict_lookup out.1 (py "crew_analysis") = Some crew_result
               ∧ dict_lookup out.1 (py "pdf_processing")
                 = Some (VDict (process_pdf pdf_path pdf_bytes).1)
           | Raise e => out.1 = analysis_failure e (py "PDF analysis failed")
           end).
Proof.
  intros Hraw Hne Hmark out. subst out. unfold analyze_resume_from_pdf.
  rewrite (process_pdf_success _ _ _ _ Hraw Hne Hmark).
  pose proof (clean_text_output_shape raw_text) as (_ & _ & _ & Hstrip & _).
  revert Hstrip.
  generalize (analyze_readability (clean_text raw_text)).1 as metrics.
  generalize (extract_key_phrases (clean_text raw_text) default_top_n).1 as phrases.
  generalize (clean_text raw_text) as cleaned.
  intros cleaned phrases metrics Hstrip.
  unfold pdf_inputs.
  change (truthy _) with true. cbn [negb].
  change (getitem _ (py "cleaned_text")) with (Ok (VStr cleaned)).
  cbn [mbind result_bind value_strip]. rewrite Hstrip.
  generalize (profile_or_empty user_profile) as profile. intros profile.
  split.
  - intros ->. by rewrite bool_decide_eq_true_2.
  - intros Hfull. rewrite bool_decide_eq_false_2 by done.
    change (getitem _ (py "readability_metrics")) with (Ok (VDict metrics)).
    change (getitem _ (py "key_phrases")) with (Ok (strs phrases)).
    change (getitem _ (py "text_length")) with (Ok (len cleaned)).
    change (getitem _ (py "word_count"))
      with (Ok (dict_get metrics (py "word_count") (VInt 0))).
    cbn [mbind result_bind mret result_ret].
    eexists. split_and!; [by destruct (kickoff _ ≫= _)|reflexivity|].
    destruct (kickoff _) as [crew_result|e]; [|done].
    unfold pdf_analysis.
    change (getitem _ (py "readability_metrics")) with (Ok (VDict metrics)).
    change (getitem _ (py "key_phrases")) with (Ok (strs phrases)).
    cbn [mbind result_bind mret result_ret value_get fst].
    split_and!; reflexivity.
Qed.
End analyzer_properties.

(** * The text route *)

Lemma dict_set_nonempty d k v : dict_set d k v ≠ [].
Proof. destruct d as [|[k' v'] d]; cbn; [|destruct (str_eqb k' k)]; discriminate. Qed.

Lemma dict_lookup_dict_set d k v : dict_lookup (dict_set d k v) k = Some v.
Proof.
  induction d as [|[k' v'] d IH]; cbn.
  - unfold str_eqb. by rewrite bool_decide_eq_true_2.
  - destruct (str_eqb k' k) eqn:E; cbn; rewrite E; [done|apply IH].
Qed.

Lemma dict_lookup_dict_set_ne d k k' v :
  k ≠ k' → dict_lookup (dict_set d k v) k' = dict_lookup d k'.
Proof.
  intros Hne. induction d as [|[k'' v''] d IH]; cbn.
  - unfold str_eqb. by rewrite bool_decide_eq_false_2.
  - destruct (str_eqb k'' k) eqn:E; cbn; [|by rewrite IH].
    unfold str_eqb in *. apply bool_decide_eq_true in E as ->.
    by rewrite bool_decide_eq_false_2.
Qed.

Lemma dict_get_dict_set_ne d k k' v default :
  k ≠ k' → dict_get (dict_set d k v) k' default = dict_get d k' default.
Proof. intros Hne. unfold dict_get. by rewrite dict_lookup_dict_set_ne. Qed.

Lemma truthy_dict_set d k v : truthy (VDict (dict_set d k v)) = true.
Proof. pose proof (dict_set_nonempty d k v). cbn. by destruct (dict_set d k v). Qed.

Section text_route_properties.
Context `{UnicodeData, Json, Hashlib}.


Lemma get_cached_analysis_hit now now' h db r v :
  analysis_cache db !! h = Some r →
  now - hours 24 < created_at r →
  json_loads (analysis_result r) = Ok v →
  get_cached_analysis now now' h db
  = ({| analysis_cache := <[h := touch now' r]> (analysis_cache db);
        sqlite_sequence := sqlite_sequence db |}, Some v).
Proof.
  intros Hr Hfresh Hjson. unfold get_cached_analysis.
  by rewrite Hr, bool_decide_eq_true_2, Hjson.
Qed.

(** The request [{..., 'resume_text': text, ...}] with a text that
    passes validation reaches the cache. *)
Lemma analyze_text_try_valid `{ResumeService} data text h now now' now'' db :
  dict_lookup data (py "resume_text") = Some (VStr text) →
  (validate_resume_content text).1 = true →
  get_content_hash text = Ok h →
  analyze_text_try (Ok (VDict data)) now now' now'' db
  = let '(db, cached_result) := get_cached_analysis now now' h db in
    match cached_result with
    | Some (VDict (item :: d)) =>
        (db, Some (VDict (dict_set (item :: d) (py "from_cache") (VBool true)), 200))
    | Some cached =>
        if truthy cached then (db, None)
        else analyze_text_uncached now'' text h db
    | None => analyze_text_uncached now'' text h db
    end.
Proof.
  intros Hdata Hvalid Hhash. unfold analyze_text_try.
  assert (truthy (VDict data) = true) as ->.
  { destruct data; [discriminate|done]. }
  cbn [negb value_contains value_getitem validate_value].
  rewrite Hdata, bool_decide_eq_true_2 by eauto.
  unfold validate_value.
  destruct (validate_resume_content text) as [[] msg]; [|discriminate].
  by rewrite Hhash.
Qed.

(** X16: [analyze_text] answers with one of four statuses, and a request
    it refuses with status 400 leaves the cache as it was. *)
Theorem analyze_text_rejections_leave_cache `{ResumeService}
    body now now' now'' db :
  (analyze_text body now now' now'' db).2.2 ∈ [200; 400; 500; 503]
  ∧ ((analyze_text body now now' now'' db).2.2 = 400 →
     (analyze_text body now now' now'' db).1 = db).
Proof.
  unfold analyze_text, analyze_text_try, analyze_text_uncached, error_response.
  destruct body as [data|e]; cbn [fst snd].
  2:{ split; [rewrite !elem_of_cons; auto 6|discriminate]. }
  repeat (case_match; subst; cbn [fst snd] in * );
    try discriminate; simplify_eq;
    (split; cbn [fst snd];
     [rewrite !elem_of_cons; auto 6|try discriminate; try done]).
Qed.
(** X17: a valid text whose digest has a row younger than 24 hours
    holding a non-empty dictionary is answered from the cache, whatever
    the analyzer is, or if there is none: the stored dictionary with
    [from_cache] set, status 200, and the row counted as read. *)
Theorem analyze_text_cache_hit `{ResumeService}
    data text h r item d now now' now'' db :
  dict_lookup data (py "resume_text") = Some (VStr text) →
  (validate_resume_content text).1 = true →
  get_content_hash text = Ok h →
  analysis_cache db !! h = Some r →
  now - hours 24 < created_at r →
  json_loads (analysis_result r) = Ok (VDict (item :: d)) →
  analyze_text (Ok (VDict data)) now now' now'' db
  = ({| analysis_cache := <[h := touch now' r]> (analysis_cache db);
        sqlite_sequence := sqlite_sequence db |},
     (VDict (dict_set (item :: d) (py "from_cache") (VBool true)), 200)).
Proof.
  intros Hdata Hvalid Hhash Hr Hfresh Hjson. unfold analyze_text.
  rewrite (analyze_text_try_valid data text h) by done.
  by rewrite (get_cached_analysis_hit now now' h db r (VDict (item :: d))).
Qed.

(** X18: when a valid text misses the cache and the analyzer answers
    with a dictionary whose [success] is truthy, the answer is returned
    with its [analysis_id], and a second request with the same text,
    less than 24 hours after the answer was stored, is served from the
    cache, with [from_cache] set, by whatever analyzer or none. *)
Theorem analyze_text_second_request_from_cache
    (first second : ResumeService) analyze data data' text h result
    t1 t2 t3 t4 t5 t6 db :
  dict_lookup data (py "resume_text") = Some (VStr text) →
  dict_lookup data' (py "resume_text") = Some (VStr text) →
  (validate_resume_content text).1 = true →
  get_content_hash text = Ok h →
  (get_cached_analysis t1 t2 h db).2 = None →
  @resume_analyzer first = Some analyze →
  analyze text = Ok (VDict result) →
  truthy (dict_get result (py "success") VNone) = true →
  let answer := dict_set result (py "analysis_id") (VStr (take 16 h)) in
  json_loads (json_dumps (VDict answer)) = Ok (VDict answer) →
  t4 - hours 24 < t3 →
  let served := @analyze_text _ _ _ first (Ok (VDict data)) t1 t2 t3 db in
  served.2 = (VDict answer, 200)
  ∧ (@analyze_text _ _ _ second (Ok (VDict data')) t4 t5 t6 served.1).2
    = (VDict (dict_set answer (py "from_cache") (VBool true)), 200).
Proof.
  intros Hdata Hdata' Hvalid Hhash Hmiss Hanalyzer Hanalysis Hsuccess answer
    Hjson Hfresh served.
  assert (served
          = (cache_analysis t3 h (VDict answer) (get_cached_analysis t1 t2 h db).1,
             (VDict answer, 200))) as ->.
  { unfold served, analyze_text.
    rewrite (analyze_text_try_valid data text h) by done.
    destruct (get_cached_analysis t1 t2 h db) as [db1 cached].
    cbn [fst snd] in *. subst cached.
    unfold analyze_text_uncached. rewrite Hanalyzer, Hanalysis.
    fold answer. unfold answer at 1.
    rewrite dict_get_dict_set_ne, Hsuccess by (vm_compute; discriminate).
    done. }
  split; [done|]. cbn [fst].
  pose proof (dict_set_nonempty result (py "analysis_id") (VStr (take 16 h)))
    as Hne. fold answer in Hne.
  clearbody answer. destruct answer as [|item d]; [done|].
  rewrite (analyze_text_cache_hit (H2 := second) data' text h _ item d t4 t5 t6 _
             Hdata' Hvalid Hhash (cache_analysis_lookup t3 h _ _)); [done|done..].
Qed.

End text_route_properties.

(** * The feedback route *)

Section feedback_route_properties.
Context `{Sqlite3}.

Lemma rating_refused_false rating :
  rating_refused rating = false →
  rating = VBool true ∨ ∃ n, rating = VInt n ∧ 1 ≤ n ≤ 5.
Proof.
  unfold rating_refused. intros Hr. apply orb_false_elim in Hr as [_ Hr].
  destruct rating as [|[]|n| | | |]; try discriminate; [by left|].
  right. exists n. apply orb_false_elim in Hr as [?%Z.ltb_ge ?%Z.ltb_ge]. done.
Qed.

Lemma value_len_slice_to n v v' :
  slice_to n v = Some v' → ∃ m, value_len v' = Some m ∧ m ≤ Z.of_nat n.
Proof.
  destruct v; intros; simplify_eq/=; eexists; (split; [done|]);
    rewrite length_take; lia.
Qed.

(** X20: [submit_feedback] either leaves the table as it is and answers
    with an error status, or answers 200 and appends exactly one row,
    and then the rating of the row is [True] or an integer from 1 to 5,
    its comment is a sequence of at most 1000 items, and each of the
    three values is one the database binds. *)
Theorem submit_feedback_stores_valid_ratings_only body feedback :
  ((submit_feedback body feedback).1 = feedback
   ∧ ((submit_feedback body feedback).2.2 = 400
      ∨ (submit_feedback body feedback).2.2 = 500))
  ∨ ∃ row,
      (submit_feedback body feedback).1 = feedback ++ [row]
      ∧ (submit_feedback body feedback).2.2 = 200
      ∧ (rating row = VBool true ∨ ∃ n, rating row = VInt n ∧ 1 ≤ n ≤ 5)
      ∧ (∃ m, value_len (comments row) = Some m ∧ m ≤ 1000)
      ∧ sqlite_adapts (rating row) = true
      ∧ sqlite_adapts (comments row) = true
      ∧ sqlite_adapts (analysis_id row) = true.
Proof.
  unfold submit_feedback.
  destruct body as [data|e]; [|left; auto].
  destruct (negb (truthy data)); [left; auto|].
  destruct data as [| | | | | |d]; try (left; by auto).
  destruct (rating_refused _) eqn:Hrating; [left; auto|].
  destruct (slice_to 1000 _) as [sliced|] eqn:Hslice; [|left; auto].
  destruct (sqlite_adapts (dict_get d (py "rating") VNone)) eqn:H1;
    [|left; auto].
  destruct (sqlite_adapts sliced) eqn:H2; [|left; auto].
  destruct (sqlite_adapts (dict_get d (py "analysis_id") (VStr []))) eqn:H3;
    [|left; auto].
  right. eexists. cbn [fst snd andb rating comments analysis_id].
  split; [done|]. split; [done|].
  split; [by apply rating_refused_false|].
  split; [by apply (value_len_slice_to 1000 _ _ Hslice)|]. done.
Qed.

(** X21: a rating from 1 to 5 with a text comment is stored when the
    database binds the three values, and the comment is cut after 1000
    characters rather than refused. *)
Theorem submit_feedback_truncates_comments d n text feedback :
  dict_lookup d (py "rating") = Some (VInt n) →
  dict_lookup d (py "comments") = Some (VStr text) →
  1 ≤ n ≤ 5 →
  sqlite_adapts (VInt n) = true →
  sqlite_adapts (VStr (take 1000 text)) = true →
  sqlite_adapts (dict_get d (py "analysis_id") (VStr [])) = true →
  (submit_feedback (Ok (VDict d)) feedback).1
  = feedback ++ [ {| rating := VInt n;
                     comments := VStr (take 1000 text);
                     analysis_id := dict_get d (py "analysis_id") (VStr []) |} ]
  ∧ (submit_feedback (Ok (VDict d)) feedback).2.2 = 200.
Proof.
  intros Hrating Hcomments Hn H1 H2 H3. unfold submit_feedback.
  assert (truthy (VDict d) = true) as ->. { by destruct d. }
  assert (dict_get d (py "rating") VNone = VInt n) as ->.
  { unfold dict_get. by rewrite Hrating. }
  assert (dict_get d (py "comments") (VStr []) = VStr text) as ->.
  { unfold dict_get. by rewrite Hcomments. }
  assert (rating_refused (VInt n) = false) as ->.
  { unfold rating_refused. cbn [truthy].
    rewrite (proj2 (Z.eqb_neq n 0)), (proj2 (Z.ltb_ge n 1)), (proj2 (Z.ltb_ge 5 n))
      by lia. done. }
  cbn [negb slice_to]. rewrite H1, H2, H3. done.
Qed.
End feedback_route_properties.

(** * The properties on examples *)

Section examples.
#[local] Existing Instances ascii_letters_only one_page_documents
  splitting_tokenizers word_count_scores text_json.

(** Two puts of the same digest into the empty table. *)
Lemma put_accumulates_access_count_example :
  ∃ r2, analysis_cache
          (cache_analysis 5000 sample_hash sample_result
             (cache_analysis 1000 sample_hash (VDict []) empty_database))
        !! sample_hash = Some r2
        ∧ analysis_result r2 = json_dumps sample_result
        ∧ accessed_count r2 = 2
        ∧ created_at r2 = 5000 ∧ last_accessed r2 = 5000.
Proof.
  exact (proj2 (proj2 (put_accumulates_access_count sample_hash (VDict [])
                         sample_result 1000 5000 empty_database
                         (lookup_empty sample_hash)))).
Defined.




(** The level of a text of nine words, whose stand-in score is 55. *)
Lemma readability_level_example :
  dict_lookup
    (analyze_readability
       (py "John Doe. Software Engineer with five years Python experience.")).1
    (py "readability_level")
  = Some (VStr (py "Fairly Difficult")).
Proof.
  refine (proj2 (proj1 (proj2 (readability_level_is_threshold_ladder
            (py "John Doe. Software Engineer with five years Python experience.")
            _)) _ _ _ _ _ eq_refl eq_refl eq_refl eq_refl eq_refl _)).
  - vm_compute. repeat constructor.
  - right. vm_compute. discriminate.
Defined.

(** A text with a character to strip between two spaces, cleaned once
    and twice. *)
Lemma clean_text_not_idempotent :
  clean_text (clean_text (py "a # b")) ≠ clean_text (py "a # b").
Proof. vm_compute. discriminate. Qed.

(** The example of the design document. *)
Lemma key_phrases_example :
  (extract_key_phrases (py "python python sql python sql java") 2).1
  = [py "python"; py "sql"].
Proof.
  refine (proj2 (proj2 (proj2 (proj2 (proj2 (proj2
            (key_phrases_are_top_ranked [] 0)))))) eq_refl _ _ _);
    vm_compute; intros Hin; discriminate Hin.
Defined.

(** A document whose only page has no text: pdfplumber yields an empty
    result without raising, and PyPDF2 is never opened. *)
Lemma no_fallback_on_empty_result :
  ¬ (∀ data : bytes,
       (∃ texts e, pdfplumber_pages data = Broken texts e)
       ∨ (∃ texts, pdfplumber_pages data = Pages texts ∧ plumber_text texts = []) →
       OpenPyPDF2 data ∈ (extract_text_from_bytes data).2).
Proof.
  intros Hclaim.
  assert (OpenPyPDF2 (py "%PDF") ∈ (extract_text_from_bytes (py "%PDF")).2) as Hin.
  { apply Hclaim. right. exists [Some []]. by vm_compute. }
  vm_compute in Hin. apply list_elem_of_singleton in Hin. discriminate Hin.
Qed.

(** A document with a two-letter text: extraction succeeds and the
    readability analysis returns its error variant. *)
Lemma process_pdf_succeeds_without_metrics_example :
  let out := (process_pdf None (Some (py "%PDFhi"))).1 in
  let metrics := (analyze_readability (clean_text (py "hi" ++ [10%N]))).1 in
  dict_lookup out (py "success") = Some (VBool true)
  ∧ dict_lookup out (py "readability_metrics") = Some (VDict metrics)
  ∧ dict_lookup out (py "word_count")
    = Some (dict_get metrics (py "word_count") (VInt 0))
  ∧ ((length (strip (clean_text (py "hi" ++ [10%N]))) < 10)%nat →
     dict_lookup metrics (py "error") = Some (VStr (py "Text too short for analysis"))
     ∧ dict_lookup metrics (py "readability_level") = None
     ∧ dict_lookup metrics (py "flesch_reading_ease") = None
     ∧ dict_lookup out (py "word_count") = Some (VInt 0)).
Proof.
  apply (process_pdf_succeeds_without_metrics None (Some (py "%PDFhi"))
           (py "hi" ++ [10%N])
           [LogInfo (py "Processing PDF from bytes"); OpenPdfplumber (py "%PDFhi")]).
  - vm_compute; reflexivity.
  - discriminate.
  - vm_compute; reflexivity.
Defined.
End examples.

Section damaged_examples.
#[local] Existing Instances ascii_letters_only damaged_documents
  splitting_tokenizers word_count_scores.

End damaged_examples.

(** * The further properties on examples *)

Section further_examples.
#[local] Existing Instances ascii_letters_only one_page_documents
  splitting_tokenizers word_count_scores text_json text_builtins counting_crew.

(** A put of one digest leaves the row of another as it is. *)
Lemma cache_operations_are_local_example :
  analysis_cache
    (cache_analysis 2000 (py "0a1b") (VDict [])
       (cache_analysis 1000 sample_hash sample_result empty_database))
  !! sample_hash
  = analysis_cache (cache_analysis 1000 sample_hash sample_result empty_database)
    !! sample_hash.
Proof.
  apply (proj1 (cache_operations_are_local (py "0a1b") sample_hash
                  (cache_analysis 1000 sample_hash sample_result empty_database)
                  ltac:(discriminate))).
Defined.

(** Two reads within the first hour after a put. *)
Lemma reads_count_but_do_not_refresh_example :
  get_repeatedly [(2000, 2001); (3000, 3002)] sample_hash
    (cache_analysis 1000 sample_hash sample_result empty_database)
  ≫= (λ db', accessed_count <$> analysis_cache db' !! sample_hash)
  = Some 3.
Proof.
  destruct (reads_count_but_do_not_refresh
              [(2000, 2001); (3000, 3002)] sample_hash _ _
              (cache_analysis_lookup 1000 sample_hash sample_result
                 empty_database)
              ltac:(intros tt Hin;
                    repeat (apply elem_of_cons in Hin as [->|Hin];
                            [vm_compute; reflexivity|]);
                    by apply elem_of_nil in Hin)
              ltac:(vm_compute; discriminate)
              ltac:(vm_compute; discriminate))
    as (db' & -> & Hrow & _).
  cbn [mbind option_bind]. rewrite Hrow. reflexivity.
Defined.

(** A text of white space and symbols. *)
Lemma clean_text_blank_example : clean_text (py " ## * ") = [].
Proof. apply clean_text_blank. vm_compute. reflexivity. Defined.

(** A text of digits. *)
Lemma analyze_readability_without_alphabetic_token_example :
  analyze_readability (py "1234567890 2024")
  = ([ (py "error", VStr (py "division by zero"));
       (py "word_count", VInt 2);
       (py "sentence_count", VInt 1) ],
     [LogError (py "Error calculating readability: division by zero")]).
Proof.
  refine (analyze_readability_without_alphabetic_token
            (py "1234567890 2024") _ _ _ _ _ _ eq_refl eq_refl eq_refl eq_refl
            eq_refl _ _).
  - vm_compute. repeat constructor.
  - vm_compute. discriminate.
  - vm_compute. reflexivity.
Defined.

(** The first phrase of two. *)
Lemma key_phrases_are_nested_example :
  (extract_key_phrases (py "python python sql python sql java") 1).1
  = take 1 (extract_key_phrases (py "python python sql python sql java") 2).1.
Proof.
  apply (key_phrases_are_nested (py "python python sql python sql java") 1 2).
  vm_compute. discriminate.
Defined.

(** A document that quotes an error message. *)
Lemma process_pdf_rejects_error_prefix_example :
  (process_pdf None (Some (py "%PDFError: disk full, as the log said"))).1
  = [ (py "error", VStr (py "Failed to extract text from PDF"));
      (py "raw_text", VStr (py "Error: disk full, as the log said" ++ [10%N]));
      (py "success", VBool false) ].
Proof.
  rewrite (process_pdf_rejects_error_prefix 37%N
             (py "PDFError: disk full, as the log said")
             [Some (py "Error: disk full, as the log said")]);
    vm_compute; reflexivity.
Defined.

(** A document of symbols: [process_pdf] succeeds and the analyzer
    refuses. *)
Lemma analyze_resume_from_pdf_outcomes_example :
  analyze_resume_from_pdf None (Some (py "%PDF### ***")) None
  = (analysis_failure (py "No text could be extracted from the PDF")
       (py "PDF analysis failed"), []).
Proof.
  refine (proj1 (analyze_resume_from_pdf_outcomes None (Some (py "%PDF### ***")) None
                   (py "### ***" ++ [10%N])
                   [LogInfo (py "Processing PDF from bytes");
                    OpenPdfplumber (py "%PDF### ***")] _ _ _) _).
  - vm_compute. reflexivity.
  - discriminate.
  - vm_compute. reflexivity.
  - vm_compute. reflexivity.
Defined.
End further_examples.

Section scanned_examples.
#[local] Existing Instances ascii_letters_only scanned_documents
  splitting_tokenizers word_count_scores.

(** A scanned document of two pages. *)
Lemma process_pdf_accepts_blank_fallback_pages_example :
  dict_lookup (process_pdf None (Some (py "%PDF-1.4"))).1 (py "success")
  = Some (VBool true)
  ∧ dict_lookup (process_pdf None (Some (py "%PDF-1.4"))).1 (py "cleaned_text")
    = Some (VStr []).
Proof.
  rewrite (process_pdf_accepts_blank_fallback_pages 37%N (py "PDF-1.4")
             [] (py "No text layer") [[]; [32%N]]).
  - split; vm_compute; reflexivity.
  - reflexivity.
  - reflexivity.
  - reflexivity.
  - discriminate.
  - repeat constructor.
Defined.
End scanned_examples.

Section route_examples.
#[local] Existing Instances ascii_letters_only text_json length_digests
  scalar_parameters.

(** A request one hour after the analysis of its text was stored, with
    no analyzer loaded. *)
Lemma analyze_text_cache_hit_example :
  ∃ body,
    (@analyze_text _ _ _ missing_analyzer sample_request 4600 4601 4602
       (cache_analysis 1000 sample_digest sample_result empty_database)).2
    = (VDict body, 200)
    ∧ dict_lookup body (py "from_cache") = Some (VBool true)
    ∧ dict_lookup body (py "success") = Some (VBool true).
Proof.
  eexists. split.
  - refine (f_equal snd
              (analyze_text_cache_hit (H2 := missing_analyzer)
                 [(py "resume_text", VStr sample_text)] sample_text sample_digest
                 _ _ _ 4600 4601 4602 _ _ _ _
                 (cache_analysis_lookup 1000 sample_digest sample_result
                    empty_database) _ _)).
    + vm_compute. reflexivity.
    + vm_compute. reflexivity.
    + vm_compute. reflexivity.
    + vm_compute. reflexivity.
    + vm_compute. reflexivity.
  - split; vm_compute; reflexivity.
Defined.

(** A first request on an empty cache, and the same request an hour
    later when the analyzer is gone. *)
Lemma analyze_text_second_request_from_cache_example :
  (@analyze_text _ _ _ canned_analyzer sample_request 1000 1001 1002
     empty_database).2
  = (VDict sample_answer, 200)
  ∧ (@analyze_text _ _ _ missing_analyzer sample_request 4600 4601 4602
       (@analyze_text _ _ _ canned_analyzer sample_request 1000 1001 1002
          empty_database).1).2
    = (VDict (dict_set sample_answer (py "from_cache") (VBool true)), 200).
Proof.
  apply (analyze_text_second_request_from_cache canned_analyzer missing_analyzer
           (λ _, Ok sample_result) [(py "resume_text", VStr sample_text)]
           [(py "resume_text", VStr sample_text)] sample_text sample_digest
           sample_fields 1000 1001 1002 4600 4601 4602 empty_database).
  - vm_compute. reflexivity.
  - vm_compute. reflexivity.
  - vm_compute. reflexivity.
  - vm_compute. reflexivity.
  - vm_compute. reflexivity.
  - reflexivity.
  - reflexivity.
  - vm_compute. reflexivity.
  - vm_compute. reflexivity.
  - vm_compute. reflexivity.
Defined.

(** A rating of four stars with a short comment, on an empty table. *)
Lemma submit_feedback_truncates_comments_example :
  (submit_feedback (Ok (VDict sample_feedback)) []).1
  = [ {| rating := VInt 4;
         comments := VStr (py "Clear and helpful.");
         analysis_id := VStr sample_hash |} ]
  ∧ (submit_feedback (Ok (VDict sample_feedback)) []).2.2 = 200.
Proof.
  apply (submit_feedback_truncates_comments sample_feedback 4
           (py "Clear and helpful.") []).
  - vm_compute. reflexivity.
  - vm_compute. reflexivity.
  - lia.
  - reflexivity.
  - reflexivity.
  - reflexivity.
Defined.
End route_examples.
